(** * DocuChat: document ingestion and conversational context pipeline

    A shallow embedding of [src/App.jsx] (the [DocumentSummarizer] React
    component): its state, its event handlers [handleFileSelect],
    [extractText], [generateSummaries], [handleChat] and [resetApp], and the
    conditions under which the rendered controls can fire them.

    Modelling conventions.
    - A JavaScript string is the list of its UTF-16 code units ([jsstr]);
      [length], [substring] and [trim] then count and inspect code units
      exactly as the engine does.
    - An [async] handler is split at its [await]s: one function for the
      synchronous prefix, one per continuation.  A continuation is applied to
      the component state current when the awaited promise settles, which is
      what React's setters do ([setX(v)] overwrites, [setX(prev => ...)]
      reads the current value).
    - A handler reads the state of the render it was created in; events are
      taken to arrive after the previous update has been rendered, so that
      state is the current one.
    - What the platform answers (file reader, PDF parser, [fetch]) is input:
      [FileIO] and [FetchOutcome].  A thrown value is an [Error] with a
      string message. *)

From Stdlib Require Import String Ascii.
From Stdlib Require Import List NArith Bool Arith Lia.
Import ListNotations.

(** ** JavaScript strings *)

Module JS.

Definition jsstr := list N.

(** An ASCII source literal as code units. *)
Definition lit (s : string) : jsstr :=
  map N_of_ascii (list_ascii_of_string s).
Arguments lit s%_string.

Definition LF : N := 10.

Fixpoint eqb (a b : jsstr) : bool :=
  match a, b with
  | [], [] => true
  | x :: a', y :: b' => N.eqb x y && eqb a' b'
  | _, _ => false
  end.

(** [Array.prototype.includes] on an array of strings. *)
Definition includes (l : list jsstr) (x : jsstr) : bool :=
  existsb (eqb x) l.

(** [String.prototype.startsWith]. *)
Fixpoint startsWith (s p : jsstr) {struct p} : bool :=
  match p, s with
  | [], _ => true
  | y :: p', x :: s' => N.eqb x y && startsWith s' p'
  | _ :: _, [] => false
  end.

(** WhiteSpace and LineTerminator code points of ECMAScript, the ones
    [String.prototype.trim] strips. *)
Definition isWhiteSpace (c : N) : bool :=
  ((9 <=? c) && (c <=? 13) || (c =? 32) || (c =? 160) || (c =? 5760)
   || (8192 <=? c) && (c <=? 8202) || (c =? 8232) || (c =? 8233)
   || (c =? 8239) || (c =? 8287) || (c =? 12288) || (c =? 65279))%N.

Fixpoint trimStart (s : jsstr) : jsstr :=
  match s with
  | [] => []
  | c :: r => if isWhiteSpace c then trimStart r else s
  end.

Definition trimEnd (s : jsstr) : jsstr := rev (trimStart (rev s)).

Definition trim (s : jsstr) : jsstr := trimEnd (trimStart s).

(** [s.length]. *)
Definition len (s : jsstr) : N := N.of_nat (length s).

(** [s.substring(start, finish)] for non-negative integer arguments: both
    indices are clamped to the length and swapped when out of order. *)
Definition substring (s : jsstr) (start finish : N) : jsstr :=
  let a := N.min start (len s) in
  let b := N.min finish (len s) in
  let lo := N.min a b in
  let hi := N.max a b in
  firstn (N.to_nat (hi - lo)) (skipn (N.to_nat lo) s).

(** [Array.prototype.join] on an array of strings. *)
Fixpoint join (sep : jsstr) (l : list jsstr) : jsstr :=
  match l with
  | [] => []
  | [x] => x
  | x :: ((_ :: _) as r) => x ++ sep ++ join sep r
  end.

(** [a || b] on strings: the empty string is falsy. *)
Definition orElse (a : option jsstr) (b : jsstr) : jsstr :=
  match a with
  | Some ((_ :: _) as x) => x
  | _ => b
  end.

End JS.

Import JS.

(** ** Data model *)

(** A browser [File]: the declared media type and the byte size are all the
    component reads of it directly. *)
Record File := { type : jsstr; size : N }.

Inductive Role := user | assistant.

(** One chat turn, [{ role, content }]. *)
Record Msg := { role : Role; content : jsstr }.

(** The parsed success body of the summarization service; the render reads
    exactly these five fields. *)
Module SummaryData.
Record t := {
  short : jsstr;
  detailed : jsstr;
  bullets : list jsstr;
  insights : list jsstr;
  keywords : list jsstr
}.
End SummaryData.

(** The value of [activeView]. *)
Inductive View := upload | summary | chat.

(** A settled promise. *)
Inductive Settled (A : Type) :=
| Resolved (value : A)
| Rejected (message : jsstr).
Arguments Resolved {A} value.
Arguments Rejected {A} message.

(** *** What the platform answers *)

(** [page.getTextContent()] for one page: the [str] of its items, or the
    exception raised by [getPage] or [getTextContent]. *)
Inductive PageOutcome :=
| PageThrows (message : jsstr)
| PageItems (strs : list jsstr).

(** [file.arrayBuffer()] followed by [getDocument(...).promise]. *)
Inductive PdfOutcome :=
| OpenThrows (message : jsstr)
| Opened (pages : list PageOutcome).

(** What reading the file yields: [readAsText] is [None] when the reader
    fires [onerror]. *)
Record FileIO := { readAsText : option jsstr; getDocument : PdfOutcome }.

(** [await response.json()]. *)
Inductive JsonBody (A : Type) :=
| JsonThrows (message : jsstr)
| Json (data : A).
Arguments JsonThrows {A} message.
Arguments Json {A} data.

(** The body of a failing response, [{ error }]; [None] when the field is
    absent. *)
Module ErrorData.
Record t := { error : option jsstr }.
End ErrorData.

(** The success body of the chat service, [{ content }]. *)
Module ChatData.
Record t := { content : jsstr }.
End ChatData.

(** [await fetch(...)]: a rejection, or a response with [ok] false or
    true. *)
Inductive FetchOutcome (A : Type) :=
| FetchRejected (message : jsstr)
| NotOk (body : JsonBody ErrorData.t)
| Ok (body : JsonBody A).
Arguments FetchRejected {A} message.
Arguments NotOk {A} body.
Arguments Ok {A} body.

(** *** Requests sent *)

Record SummarizeBody := { text : jsstr }.
Record ChatBody := { messages : list Msg }.

(** [POST /api/summarize] and [POST /api/chat] with their JSON bodies. *)
Inductive Request :=
| POST_summarize (body : SummarizeBody)
| POST_chat (body : ChatBody).

(** *** Component state: the ten [useState] cells *)

Record State := {
  file : option File;
  extractedText : jsstr;
  summaries : option SummaryData.t;
  loading : bool;
  chatMessages : list Msg;
  chatInput : jsstr;
  chatLoading : bool;
  activeView : View;
  expandedSummary : option jsstr;
  error : jsstr
}.

Definition initialState : State := {|
  file := None;
  extractedText := [];
  summaries := None;
  loading := false;
  chatMessages := [];
  chatInput := [];
  chatLoading := false;
  activeView := upload;
  expandedSummary := Some (lit "short");
  error := []
|}.

Definition setFile (v : option File) (s : State) : State :=
  {| file := v; extractedText := extractedText s; summaries := summaries s;
     loading := loading s; chatMessages := chatMessages s;
     chatInput := chatInput s; chatLoading := chatLoading s;
     activeView := activeView s; expandedSummary := expandedSummary s;
     error := error s |}.

Definition setExtractedText (v : jsstr) (s : State) : State :=
  {| file := file s; extractedText := v; summaries := summaries s;
     loading := loading s; chatMessages := chatMessages s;
     chatInput := chatInput s; chatLoading := chatLoading s;
     activeView := activeView s; expandedSummary := expandedSummary s;
     error := error s |}.

Definition setSummaries (v : option SummaryData.t) (s : State) : State :=
  {| file := file s; extractedText := extractedText s; summaries := v;
     loading := loading s; chatMessages := chatMessages s;
     chatInput := chatInput s; chatLoading := chatLoading s;
     activeView := activeView s; expandedSummary := expandedSummary s;
     error := error s |}.

Definition setLoading (v : bool) (s : State) : State :=
  {| file := file s; extractedText := extractedText s;
     summaries := summaries s; loading := v;
     chatMessages := chatMessages s; chatInput := chatInput s;
     chatLoading := chatLoading s; activeView := activeView s;
     expandedSummary := expandedSummary s; error := error s |}.

Definition setChatMessages (v : list Msg) (s : State) : State :=
  {| file := file s; extractedText := extractedText s;
     summaries := summaries s; loading := loading s; chatMessages := v;
     chatInput := chatInput s; chatLoading := chatLoading s;
     activeView := activeView s; expandedSummary := expandedSummary s;
     error := error s |}.

Definition setChatInput (v : jsstr) (s : State) : State :=
  {| file := file s; extractedText := extractedText s;
     summaries := summaries s; loading := loading s;
     chatMessages := chatMessages s; chatInput := v;
     chatLoading := chatLoading s; activeView := activeView s;
     expandedSummary := expandedSummary s; error := error s |}.

Definition setChatLoading (v : bool) (s : State) : State :=
  {| file := file s; extractedText := extractedText s;
     summaries := summaries s; loading := loading s;
     chatMessages := chatMessages s; chatInput := chatInput s;
     chatLoading := v; activeView := activeView s;
     expandedSummary := expandedSummary s; error := error s |}.

Definition setActiveView (v : View) (s : State) : State :=
  {| file := file s; extractedText := extractedText s;
     summaries := summaries s; loading := loading s;
     chatMessages := chatMessages s; chatInput := chatInput s;
     chatLoading := chatLoading s; activeView := v;
     expandedSummary := expandedSummary s; error := error s |}.

Definition setExpandedSummary (v : option jsstr) (s : State) : State :=
  {| file := file s; extractedText := extractedText s;
     summaries := summaries s; loading := loading s;
     chatMessages := chatMessages s; chatInput := chatInput s;
     chatLoading := chatLoading s; activeView := activeView s;
     expandedSummary := v; error := error s |}.

Definition setError (v : jsstr) (s : State) : State :=
  {| file := file s; extractedText := extractedText s;
     summaries := summaries s; loading := loading s;
     chatMessages := chatMessages s; chatInput := chatInput s;
     chatLoading := chatLoading s; activeView := activeView s;
     expandedSummary := expandedSummary s; error := v |}.

(** ** Ingestion: [handleFileSelect], [extractText], [generateSummaries] *)

Definition validTypes : list jsstr :=
  [ lit "application/pdf";
    lit "application/msword";
    lit "application/vnd.openxmlformats-officedocument.wordprocessingml.document";
    lit "text/plain";
    lit "image/jpeg";
    lit "image/png";
    lit "image/jpg" ].

Definition msgInvalidType : jsstr :=
  lit "Please upload a valid file (PDF, DOC, DOCX, TXT)".

Definition msgTooLarge : jsstr := lit "File size must be less than 10MB".

Definition greeting : Msg :=
  {| role := assistant;
     content := lit "Hello! I've analyzed your document. Ask me anything about it!" |}.

(** [handleFileSelect] up to its first [await].  The second component is
    the file [extractText] is called on, [None] when the handler returned
    before reaching the call. *)
Definition handleFileSelect (files : list File) (s : State)
  : State * option File :=
  match hd_error files with
  | None => (s, None)
  | Some selectedFile =>
      if negb (includes validTypes (type selectedFile)) then
        (setError msgInvalidType s, None)
      else if (10 * 1024 * 1024 <? size selectedFile)%N then
        (setError msgTooLarge s, None)
      else
        (setActiveView summary
           (setError [] (setLoading true (setFile (Some selectedFile) s))),
         Some selectedFile)
  end.

Definition msgReadError : jsstr := lit "Failed to read text file".

Definition msgNoText : jsstr :=
  lit "No text found in PDF (it might be scanned/image-based)".

Definition msgPdfFailed (cause : jsstr) : jsstr :=
  lit "Failed to extract text from PDF: " ++ cause.

Definition imagePlaceholder : jsstr :=
  lit "[Image support requires OCR which is not yet implemented. Please upload a PDF or text file.]".

Definition docPlaceholder : jsstr :=
  lit "[DOC/DOCX support requires additional libraries not yet installed. Please upload a PDF or text file.]".

(** The page loop, pages 1 to [numPages] in order: a page's items are
    joined with one space and followed by a newline. *)
Fixpoint walkPages (pages : list PageOutcome) (fullText : jsstr)
  : Settled jsstr :=
  match pages with
  | [] => Resolved fullText
  | PageThrows m :: _ => Rejected m
  | PageItems strs :: rest =>
      walkPages rest (fullText ++ (join (lit " ") strs ++ [LF]))
  end.

Definition isEmpty (s : jsstr) : bool :=
  match s with [] => true | _ :: _ => false end.

Definition extractText (f : File) (io : FileIO) : Settled jsstr :=
  if eqb (type f) (lit "text/plain") then
    match readAsText io with
    | Some result => Resolved result
    | None => Rejected msgReadError
    end
  else if eqb (type f) (lit "application/pdf") then
    match
      match getDocument io with
      | OpenThrows m => Rejected m
      | Opened pages => walkPages pages []
      end
    with
    | Resolved fullText =>
        if isEmpty (trim fullText) then Rejected msgNoText
        else Resolved fullText
    | Rejected m => Rejected (msgPdfFailed m)
    end
  else if startsWith (type f) (lit "image/") then Resolved imagePlaceholder
  else Resolved docPlaceholder.

(** The request [generateSummaries] sends: the body is [{ text }]. *)
Definition generateSummaries_request (t : jsstr) : Request :=
  POST_summarize {| text := t |}.

Definition msgSummaryFailed (cause : jsstr) : jsstr :=
  lit "Failed to generate summaries: " ++ cause.

(** [generateSummaries] once [fetch] has settled: the [try] body, then the
    [catch] that wraps whatever was thrown. *)
Definition generateSummaries_settled (r : FetchOutcome SummaryData.t)
  : Settled SummaryData.t :=
  match
    match r with
    | FetchRejected m => Rejected m
    | NotOk (JsonThrows m) => Rejected m
    | NotOk (Json errorData) =>
        Rejected (orElse (ErrorData.error errorData) (lit "API request failed"))
    | Ok (JsonThrows m) => Rejected m
    | Ok (Json data) => Resolved data
    end
  with
  | Resolved data => Resolved data
  | Rejected m => Rejected (msgSummaryFailed m)
  end.

(** The [catch] and [finally] of [handleFileSelect]. *)
Definition handleFileSelect_catch (message : jsstr) (s : State) : State :=
  setLoading false
    (setFile None
       (setActiveView upload
          (setError (lit "Error processing document: " ++ message) s))).

(** [handleFileSelect] resumed when [extractText] settles.  On success it
    stores the text and calls [generateSummaries], whose request is the
    second component. *)
Definition handleFileSelect_extracted (r : Settled jsstr) (s : State)
  : State * option Request :=
  match r with
  | Resolved t => (setExtractedText t s, Some (generateSummaries_request t))
  | Rejected m => (handleFileSelect_catch m s, None)
  end.

(** [handleFileSelect] resumed when [generateSummaries] settles. *)
Definition handleFileSelect_summarized (r : Settled SummaryData.t)
  (s : State) : State :=
  match r with
  | Resolved summaryData =>
      setLoading false
        (setChatMessages [greeting] (setSummaries (Some summaryData) s))
  | Rejected m => handleFileSelect_catch m s
  end.

(** ** Chat: [handleChat] *)

Definition framingText : jsstr :=
  lit "You are a helpful assistant answering questions about this document. Only use information from the document to answer questions."
  ++ [LF; LF] ++ lit "Document:" ++ [LF].

Definition framing (extracted : jsstr) : Msg :=
  {| role := user;
     content := framingText ++ substring extracted 0 20000 |}.

Definition acknowledgment : Msg :=
  {| role := assistant;
     content := lit "I understand. I will answer questions based only on the document content provided." |}.

Definition fallback : jsstr :=
  lit "Sorry, I encountered an error. Please try again.".

(** [handleChat] up to its [await fetch].  The second component is the
    request sent, [None] when the guard returned. *)
Definition handleChat (s : State) : State * option Request :=
  if isEmpty (trim (chatInput s)) || chatLoading s then (s, None)
  else
    let userMessage := trim (chatInput s) in
    let s' :=
      setChatLoading true
        (setChatMessages
           (chatMessages s ++ [{| role := user; content := userMessage |}])
           (setChatInput [] s)) in
    let conversationHistory :=
      map (fun msg => {| role := role msg; content := content msg |})
          (chatMessages s) in
    (s',
     Some (POST_chat
             {| messages :=
                  [framing (extractedText s); acknowledgment]
                  ++ conversationHistory
                  ++ [{| role := user; content := userMessage |}] |})).

(** [handleChat] resumed when [fetch] settles: the rest of the [try], the
    [catch] and the [finally]. *)
Definition handleChat_settled (r : FetchOutcome ChatData.t) (s : State)
  : State :=
  let reply :=
    match
      match r with
      | FetchRejected m => Rejected m
      | NotOk (JsonThrows m) => Rejected m
      | NotOk (Json errorData) =>
          Rejected (orElse (ErrorData.error errorData)
                           (lit "Chat API request failed"))
      | Ok (JsonThrows m) => Rejected m
      | Ok (Json data) => Resolved (ChatData.content data)
      end
    with
    | Resolved answer => answer
    | Rejected _ => fallback
    end in
  setChatLoading false
    (setChatMessages
       (chatMessages s ++ [{| role := assistant; content := reply |}]) s).

(** ** Reset: [resetApp] *)

(** [fileInputRef.current] is [None] while the file input is not mounted,
    else the input's [value]. *)
Definition resetApp (s : State) (fileInputRef : option jsstr)
  : State * option jsstr :=
  (setError []
     (setActiveView upload
        (setChatMessages []
           (setSummaries None (setExtractedText [] (setFile None s))))),
   match fileInputRef with
   | Some _ => Some []
   | None => None
   end).

(** ** The mounted component

    The component together with what is in flight.  Every continuation
    waiting on a promise is an entry of [pending]; the requests sent so far
    are logged in [sent], oldest first. *)

Inductive Pending :=
| AwaitExtract (f : File)   (* [await extractText(selectedFile)] *)
| AwaitSummary              (* [await generateSummaries(text)] *)
| AwaitChat.                (* [await fetch(.../api/chat)] *)

Record Config := {
  state : State;
  fileInputRef : option jsstr;
  pending : list Pending;
  sent : list Request
}.

Inductive Outcome :=
| Extracted (io : FileIO)
| Summarized (r : FetchOutcome SummaryData.t)
| Answered (r : FetchOutcome ChatData.t).

Inductive Event :=
| FileChange (value : jsstr) (files : list File) (* [onChange] of the file input *)
| ClickReset
| ClickSummaryTab
| ClickChatTab
| ClickDetailed
| ChatInputChange (value : jsstr)
| ChatKeyEnter
| ClickSend
| Settle (i : nat) (o : Outcome).   (* the [i]-th pending promise settles *)

(** The file input is rendered in the upload view only: the ref is attached
    (to a fresh, empty input) when that view appears and cleared when it
    goes. *)
Definition attachRef (s : State) (r : option jsstr) : option jsstr :=
  match activeView s with
  | upload => match r with Some v => Some v | None => Some [] end
  | _ => None
  end.

Definition render (s : State) (r : option jsstr) (p : list Pending)
  (out : list Request) : Config :=
  {| state := s; fileInputRef := attachRef s r; pending := p; sent := out |}.

Definition optList {A} (o : option A) : list A :=
  match o with Some a => [a] | None => [] end.

Definition dropAt {A} (i : nat) (l : list A) : list A :=
  firstn i l ++ skipn (S i) l.

Definition step (c : Config) (e : Event) : Config :=
  let s := state c in
  match e with
  | FileChange v files =>
      let '(s', call) := handleFileSelect files s in
      render s' (option_map (fun _ => v) (fileInputRef c))
             (pending c ++ optList (option_map AwaitExtract call)) (sent c)
  | ClickReset =>
      let '(s', r') := resetApp s (fileInputRef c) in
      render s' r' (pending c) (sent c)
  | ClickSummaryTab =>
      render (setActiveView summary s) (fileInputRef c) (pending c) (sent c)
  | ClickChatTab =>
      render (setActiveView chat s) (fileInputRef c) (pending c) (sent c)
  | ClickDetailed =>
      render
        (setExpandedSummary
           (match expandedSummary s with
            | Some x => if eqb x (lit "detailed") then None
                        else Some (lit "detailed")
            | None => Some (lit "detailed")
            end) s)
        (fileInputRef c) (pending c) (sent c)
  | ChatInputChange v =>
      render (setChatInput v s) (fileInputRef c) (pending c) (sent c)
  | ChatKeyEnter | ClickSend =>
      let '(s', req) := handleChat s in
      render s' (fileInputRef c)
             (pending c ++ optList (option_map (fun _ => AwaitChat) req))
             (sent c ++ optList req)
  | Settle i o =>
      match nth_error (pending c) i, o with
      | Some (AwaitExtract f), Extracted io =>
          let '(s', req) := handleFileSelect_extracted (extractText f io) s in
          render s' (fileInputRef c)
                 (firstn i (pending c)
                  ++ optList (option_map (fun _ => AwaitSummary) req)
                  ++ skipn (S i) (pending c))
                 (sent c ++ optList req)
      | Some AwaitSummary, Summarized r =>
          render (handleFileSelect_summarized (generateSummaries_settled r) s)
                 (fileInputRef c) (dropAt i (pending c)) (sent c)
      | Some AwaitChat, Answered r =>
          render (handleChat_settled r s)
                 (fileInputRef c) (dropAt i (pending c)) (sent c)
      | _, _ => c
      end
  end.

(** When the rendered page lets an event happen: the control is in the
    page and not disabled, or the promise is one in flight. *)
Definition enabled (c : Config) (e : Event) : bool :=
  let s := state c in
  match e with
  | FileChange _ _ =>
      match activeView s with upload => true | _ => false end
  | ClickReset =>
      match file s with Some _ => true | None => false end
  | ClickSummaryTab | ClickChatTab =>
      match activeView s with upload => false | _ => true end
  | ClickDetailed =>
      match activeView s, summaries s with
      | summary, Some _ => negb (loading s)
      | _, _ => false
      end
  | ChatInputChange _ | ChatKeyEnter =>
      match activeView s with chat => negb (chatLoading s) | _ => false end
  | ClickSend =>
      match activeView s with
      | chat => negb (chatLoading s || isEmpty (trim (chatInput s)))
      | _ => false
      end
  | Settle i o =>
      match nth_error (pending c) i, o with
      | Some (AwaitExtract _), Extracted _ => true
      | Some AwaitSummary, Summarized _ => true
      | Some AwaitChat, Answered _ => true
      | _, _ => false
      end
  end.

Definition initialConfig : Config :=
  render initialState None [] [].

Definition run (c : Config) (evs : list Event) : Config :=
  fold_left step evs c.

(** Every event of the sequence is enabled when its turn comes. *)
Fixpoint feasible (c : Config) (evs : list Event) : bool :=
  match evs with
  | [] => true
  | e :: rest => enabled c e && feasible (step c e) rest
  end.

(** The last request sent. *)
Definition lastSent (c : Config) : option Request :=
  last (map Some (sent c)) None.

(** ** Notions used in the statements

    *** Strings *)

(** A string made of white space only; the empty string is one. *)
Definition blank (s : jsstr) : bool := forallb isWhiteSpace s.

(** A string that neither starts nor ends with white space. *)
Definition tight (s : jsstr) : Prop :=
  (forall c r, s = c :: r -> isWhiteSpace c = false) /\
  (forall r c, s = r ++ [c] -> isWhiteSpace c = false).

(** *** Ingestion from selection to the end of the handler *)

(** The two checks of [handleFileSelect] pass. *)
Definition accepted (f : File) : bool :=
  includes validTypes (type f) && (size f <=? 10 * 1024 * 1024)%N.

(** The text of a PDF all of whose pages could be read. *)
Definition pagesText (pages : list (list jsstr)) : jsstr :=
  flat_map (fun strs => join (lit " ") strs ++ [LF]) pages.


(** [handleFileSelect] on one selected file, run from the selection to the
    end of its [finally] with no other event in between. *)
Definition ingest (f : File) (io : FileIO) (r : FetchOutcome SummaryData.t)
  (s : State) : State :=
  let '(s1, call) := handleFileSelect [f] s in
  match call with
  | None => s1
  | Some f' =>
      let '(s2, req) := handleFileSelect_extracted (extractText f' io) s1 in
      match req with
      | None => s2
      | Some _ =>
          handleFileSelect_summarized (generateSummaries_settled r) s2
      end
  end.


(** Document, extracted text, summary and conversation of a state. *)
Definition session (s : State)
  : option File * jsstr * option SummaryData.t * list Msg :=
  (file s, extractedText s, summaries s, chatMessages s).

(** *** Chat calls in flight *)

(** The pending promise is a chat call. *)
Definition isAwaitChat (p : Pending) : bool :=
  match p with AwaitChat => true | _ => false end.

(** The number of chat calls in flight. *)
Definition chatsInFlight (p : list Pending) : nat :=
  length (filter isAwaitChat p).

(** What holds of the mounted component after any sequence of events: the
    file input is attached exactly in the upload view, and [chatLoading] is
    on exactly while one chat call is in flight, of which there is never
    more than one. *)
Record Inv (c : Config) : Prop := {
  inv_ref : fileInputRef c = attachRef (state c) (fileInputRef c);
  inv_chat :
    chatsInFlight (pending c) = if chatLoading (state c) then 1 else 0
}.

(** *** Sessions *)

Definition userTurn (t : jsstr) : Msg := {| role := user; content := t |}.

Definition assistantTurn (t : jsstr) : Msg :=
  {| role := assistant; content := t |}.

(** The events of a successful ingestion, followed by a click on the Chat
    tab. *)
Definition ingestion (v : jsstr) (f : File) (io : FileIO)
  (d : SummaryData.t) : list Event :=
  [ FileChange v [f];
    Settle 0 (Extracted io);
    Settle 0 (Summarized (Ok (Json d)));
    ClickChatTab ].

(** The events of one chat turn that completes successfully: the question
    is typed and submitted, and the service answers. *)
Definition turn (qa : jsstr * jsstr) : list Event :=
  [ ChatInputChange (fst qa);
    ChatKeyEnter;
    Settle 0 (Answered (Ok (Json {| ChatData.content := snd qa |}))) ].

(** The two chat turns such a turn adds to the conversation. *)
Definition exchange (qa : jsstr * jsstr) : list Msg :=
  [userTurn (trim (fst qa)); assistantTurn (snd qa)].

(** The component is idle in the chat view, over text [T], with
    conversation [h]. *)
Definition readyChat (T : jsstr) (h : list Msg) (c : Config) : Prop :=
  extractedText (state c) = T /\
  chatMessages (state c) = h /\
  chatLoading (state c) = false /\
  activeView (state c) = chat /\
  pending c = [].

(** ** Sample inputs *)

Definition tenMiBTextFile : File :=
  {| type := lit "text/plain"; size := 10 * 1024 * 1024 |}.

Definition smallTextFile : File := {| type := lit "text/plain"; size := 1 |}.

Definition readsAs (t : jsstr) : FileIO :=
  {| readAsText := Some t; getDocument := OpenThrows [] |}.




Definition sampleSummary : SummaryData.t :=
  {| SummaryData.short := lit "s"; SummaryData.detailed := lit "d";
     SummaryData.bullets := []; SummaryData.insights := [];
     SummaryData.keywords := [] |}.

(** A session the page allows: a text document is ingested, the detailed
    summary is opened, a question is typed in the chat view, then Reset is
    clicked. *)
Definition typedThenReset : list Event :=
  [ FileChange (lit "a.txt") [smallTextFile];
    Settle 0 (Extracted (readsAs (lit "x")));
    Settle 0 (Summarized (Ok (Json sampleSummary)));
    ClickDetailed;
    ClickChatTab;
    ChatInputChange (lit "hi");
    ClickReset ].

(** A document is ingested and the chat view opened. *)
Definition ingestedAgain : list Event :=
  [ FileChange (lit "b.txt") [smallTextFile];
    Settle 0 (Extracted (readsAs (lit "y")));
    Settle 0 (Summarized (Ok (Json sampleSummary)));
    ClickChatTab ].

(** A document is ingested and a first question submitted, not yet
    answered. *)
Definition oneChatInFlight : list Event :=
  [ FileChange (lit "a.txt") [smallTextFile];
    Settle 0 (Extracted (readsAs (lit "x")));
    Settle 0 (Summarized (Ok (Json sampleSummary)));
    ClickChatTab;
    ChatInputChange (lit "first");
    ChatKeyEnter ].

(** A text of 20,001 code units. *)
Definition longText : jsstr := repeat 97%N (N.to_nat 20001).

Definition longTextState : State :=
  setChatInput (lit "why?") (setExtractedText longText initialState).

Definition oneTurn : list (jsstr * jsstr) :=
  [(lit " What is it about? ", lit "It is about x.")].

(** ** Further notions

    *** Ingestions in flight *)

(** The pending promise belongs to a [handleFileSelect] in progress. *)
Definition isAwaitIngest (p : Pending) : bool :=
  match p with AwaitExtract _ | AwaitSummary => true | AwaitChat => false end.

(** The number of [handleFileSelect] calls in progress. *)
Definition ingestionsInFlight (p : list Pending) : nat :=
  length (filter isAwaitIngest p).

(** The three events of one ingestion when [n] promises were pending at the
    selection. *)
Definition ingestEvents (n : nat) (v : jsstr) (f : File) (io : FileIO)
  (r : FetchOutcome SummaryData.t) : list Event :=
  [ FileChange v [f]; Settle n (Extracted io); Settle n (Summarized r) ].

(** What holds of the mounted component after any sequence of events, on
    the side of ingestion: in the upload view there is no current document,
    and [loading] is on only while a [handleFileSelect] is in progress. *)
Record InvIngest (c : Config) : Prop := {
  inv_upload : activeView (state c) = upload -> file (state c) = None;
  inv_loading :
    loading (state c) = true -> 0 < ingestionsInFlight (pending c)
}.

(** *** Chat turns with any outcome *)

(** The content of the assistant turn appended when the chat call settles:
    the returned [content] on a successful response whose body parses, the
    fixed apology otherwise. *)
Definition chatReply (r : FetchOutcome ChatData.t) : jsstr :=
  match r with
  | Ok (Json data) => ChatData.content data
  | _ => fallback
  end.

(** The events of one chat turn, whatever the service answers. *)
Definition anyTurn (qr : jsstr * FetchOutcome ChatData.t) : list Event :=
  [ ChatInputChange (fst qr); ChatKeyEnter; Settle 0 (Answered (snd qr)) ].

(** The two chat turns it adds to the conversation. *)
Definition anyExchange (qr : jsstr * FetchOutcome ChatData.t) : list Msg :=
  [userTurn (trim (fst qr)); assistantTurn (chatReply (snd qr))].

(** Two chat turns, the first of which fails. *)
Definition failingTurns : list (jsstr * FetchOutcome ChatData.t) :=
  [ (lit "one?", FetchRejected (lit "network down"));
    (lit "two?", Ok (Json {| ChatData.content := lit "2" |})) ].

(** *** Sessions after a successful ingestion *)

(** The component just after an ingestion has succeeded, with nothing in
    flight: the conversation is the greeting, the text is [T], and a view
    other than the upload view is shown. *)
Definition seeded (T : jsstr) (c : Config) : Prop :=
  extractedText (state c) = T /\
  chatMessages (state c) = [greeting] /\
  chatLoading (state c) = false /\
  activeView (state c) <> upload /\
  pending c = [].








(** A successful ingestion, a question that is answered, some switching of
    views, and a second question typed. *)
Definition browsingSession : list Event :=
  [ ClickChatTab;
    ChatInputChange (lit " first? ");
    ChatKeyEnter;
    ClickSummaryTab;
    ClickDetailed;
    Settle 0 (Answered (Ok (Json {| ChatData.content := lit "one" |})));
    ClickChatTab;
    ChatInputChange (lit "second?") ].

(** * Properties *)

(** ** Strings *)

Lemma eqb_eq (a b : jsstr) : eqb a b = true <-> a = b.
Proof.
  revert b; induction a as [|x a IH]; intros [|y b]; simpl;
    try (split; [discriminate | congruence]); try tauto.
  rewrite andb_true_iff, N.eqb_eq, IH.
  split; [intros [-> ->]; reflexivity | intros E; injection E; auto].
Qed.

Lemma eqb_refl (a : jsstr) : eqb a a = true.
Proof. apply eqb_eq; reflexivity. Qed.

Lemma includes_In (l : list jsstr) (x : jsstr) :
  includes l x = true <-> In x l.
Proof.
  unfold includes; rewrite existsb_exists; split.
  - intros (y & Hy & E); apply eqb_eq in E; subst; exact Hy.
  - intros H; exists x; split; [exact H | apply eqb_refl].
Qed.

Lemma startsWith_app (p s : jsstr) : startsWith (p ++ s) p = true.
Proof.
  induction p as [|y p IH]; simpl; [reflexivity|].
  rewrite N.eqb_refl; exact IH.
Qed.

Lemma startsWith_prefix (s p : jsstr) :
  startsWith s p = true -> exists r, s = p ++ r.
Proof.
  revert s; induction p as [|y p IH]; intros s H; simpl in *.
  - exists s; reflexivity.
  - destruct s as [|x s]; [discriminate|].
    apply andb_true_iff in H as [E H]; apply N.eqb_eq in E; subst.
    destruct (IH _ H) as [r ->]; exists r; reflexivity.
Qed.

Lemma len_app (a b : jsstr) : len (a ++ b) = (len a + len b)%N.
Proof. unfold len; rewrite length_app; lia. Qed.

(** From index 0, [substring] is the prefix of the requested length. *)
Lemma substring_0 (s : jsstr) (n : N) :
  substring s 0 n = firstn (N.to_nat n) s.
Proof.
  unfold substring, len.
  rewrite N.min_0_l, N.min_0_l, N.max_0_l, N.sub_0_r; simpl skipn.
  destruct (N.le_ge_cases n (N.of_nat (length s))) as [H|H].
  - rewrite N.min_l by exact H; reflexivity.
  - rewrite N.min_r by exact H.
    rewrite Nat2N.id, firstn_all, firstn_all2 by lia; reflexivity.
Qed.

Lemma substring_0_long (s : jsstr) (n : N) :
  (n < len s)%N ->
  len (substring s 0 n) = n /\
  exists tail, tail <> [] /\ s = substring s 0 n ++ tail.
Proof.
  unfold len; intros H; rewrite substring_0; split.
  - rewrite length_firstn; lia.
  - exists (skipn (N.to_nat n) s); split.
    + intros E; apply (f_equal (@length N)) in E.
      rewrite length_skipn in E; simpl in E; lia.
    + symmetry; apply firstn_skipn.
Qed.

(** *** [trim] *)

Lemma trimStart_split (s : jsstr) :
  exists p, s = p ++ trimStart s /\ blank p = true /\
            forall c r, trimStart s = c :: r -> isWhiteSpace c = false.
Proof.
  induction s as [|c s (p & E & B & H)]; simpl.
  - exists []; repeat split; intros; discriminate.
  - destruct (isWhiteSpace c) eqn:W.
    + exists (c :: p); simpl; rewrite W, B; repeat split; auto.
      congruence.
    + exists []; repeat split; intros c' r' E'; injection E' as <- _; exact W.
Qed.

Lemma blank_app (a b : jsstr) : blank (a ++ b) = blank a && blank b.
Proof. apply forallb_app. Qed.

Lemma blank_rev (a : jsstr) : blank (rev a) = blank a.
Proof.
  induction a as [|c a IH]; simpl; [reflexivity|].
  rewrite blank_app, IH; simpl; rewrite andb_true_r; apply andb_comm.
Qed.

Lemma trimStart_blank (s : jsstr) : blank s = true -> trimStart s = [].
Proof.
  induction s as [|c s IH]; simpl; [reflexivity|].
  intros H; apply andb_true_iff in H as [-> H]; auto.
Qed.

Lemma trimStart_nil_blank (s : jsstr) : trimStart s = [] -> blank s = true.
Proof.
  induction s as [|c s IH]; simpl; [reflexivity|].
  destruct (isWhiteSpace c); [exact IH | discriminate].
Qed.

Lemma trimStart_tight_head (s : jsstr) :
  (forall c r, s = c :: r -> isWhiteSpace c = false) -> trimStart s = s.
Proof.
  destruct s as [|c r]; simpl; [reflexivity|].
  intros H; rewrite (H c r eq_refl); reflexivity.
Qed.

(** [trim] removes a blank prefix and a blank suffix and leaves a string
    with white space at neither end. *)
Lemma trim_split (s : jsstr) :
  exists p q, s = p ++ trim s ++ q /\ blank p = true /\ blank q = true /\
              tight (trim s).
Proof.
  destruct (trimStart_split s) as (p & E & Bp & Hh).
  destruct (trimStart_split (rev (trimStart s))) as (q' & E' & Bq & Hl).
  exists p, (rev q'); unfold trim, trimEnd.
  assert (Es : trimStart s = rev (trimStart (rev (trimStart s))) ++ rev q').
  { rewrite <- rev_app_distr, <- E', rev_involutive; reflexivity. }
  split; [rewrite <- Es; exact E|].
  split; [exact Bp|]. split; [rewrite blank_rev; exact Bq|].
  split.
  - intros c r Ec.
    destruct (rev (trimStart (rev (trimStart s)))) as [|c0 r0] eqn:Er;
      [discriminate|].
    injection Ec as -> ->.
    apply (Hh c (r ++ rev q')); rewrite Es; reflexivity.
  - intros r c Ec. apply (Hl c (rev r)).
    rewrite <- (rev_involutive (trimStart (rev (trimStart s)))), Ec.
    rewrite rev_app_distr; reflexivity.
Qed.

Lemma trim_nil_iff (s : jsstr) : trim s = [] <-> blank s = true.
Proof.
  unfold trim, trimEnd; split.
  - intros H. apply (f_equal (@rev N)) in H; rewrite rev_involutive in H.
    simpl in H; apply trimStart_nil_blank in H; rewrite blank_rev in H.
    destruct (trimStart_split s) as (p & E & Bp & _).
    rewrite E, blank_app, Bp, H; reflexivity.
  - intros H; rewrite (trimStart_blank _ H); reflexivity.
Qed.

Lemma isEmpty_true (s : jsstr) : isEmpty s = true <-> s = [].
Proof. destruct s; simpl; split; congruence. Qed.

Lemma isEmpty_trim (s : jsstr) : isEmpty (trim s) = blank s.
Proof.
  destruct (blank s) eqn:B.
  - apply isEmpty_true, trim_nil_iff, B.
  - destruct (isEmpty (trim s)) eqn:E; [|reflexivity].
    apply isEmpty_true, trim_nil_iff in E; congruence.
Qed.

(** ** Format classifier *)

Lemma handleFileSelect_accepts (f : File) (rest : list File) (s : State) :
  accepted f = true ->
  handleFileSelect (f :: rest) s =
  (setActiveView summary (setError [] (setLoading true (setFile (Some f) s))),
   Some f).
Proof.
  unfold accepted, handleFileSelect; intros H.
  apply andb_true_iff in H as [Ht Hs]; apply N.leb_le in Hs.
  cbn [hd_error]; rewrite Ht; cbn [negb].
  destruct (N.ltb_spec (10 * 1024 * 1024) (size f)); [lia | reflexivity].
Qed.

Lemma handleFileSelect_too_large (f : File) (rest : list File) (s : State) :
  includes validTypes (type f) = true ->
  (10 * 1024 * 1024 < size f)%N ->
  handleFileSelect (f :: rest) s = (setError msgTooLarge s, None).
Proof.
  unfold handleFileSelect; intros Ht Hs.
  cbn [hd_error]; rewrite Ht; cbn [negb].
  destruct (N.ltb_spec (10 * 1024 * 1024) (size f)); [reflexivity | lia].
Qed.

Lemma handleFileSelect_invalid_type (f : File) (rest : list File) (s : State) :
  includes validTypes (type f) = false ->
  handleFileSelect (f :: rest) s = (setError msgInvalidType s, None).
Proof.
  unfold handleFileSelect; intros Ht; cbn [hd_error]; rewrite Ht.
  reflexivity.
Qed.

(** C3, as the code has it: a document of an allow-listed type whose size
    is strictly above 10 * 1024 * 1024 bytes is refused with the size
    message, and [extractText] is not called (nothing is added to the
    pending promises, nothing is sent); at exactly 10 * 1024 * 1024 bytes
    the document passes and [extractText] is called on it. *)
Theorem C3_size_ceiling_is_exclusive
  (c : Config) (v : jsstr) (f : File) (rest : list File) :
  includes validTypes (type f) = true ->
  ((10 * 1024 * 1024 < size f)%N ->
     handleFileSelect (f :: rest) (state c)
       = (setError msgTooLarge (state c), None) /\
     pending (step c (FileChange v (f :: rest))) = pending c /\
     sent (step c (FileChange v (f :: rest))) = sent c) /\
  (size f = (10 * 1024 * 1024)%N ->
     snd (handleFileSelect (f :: rest) (state c)) = Some f /\
     pending (step c (FileChange v (f :: rest)))
       = pending c ++ [AwaitExtract f]).
Proof.
  intros Ht; split; intros Hs.
  - pose proof (handleFileSelect_too_large f rest (state c) Ht Hs) as E.
    split; [exact E|]. unfold step; rewrite E; cbn.
    split; [apply app_nil_r | reflexivity].
  - assert (A : accepted f = true).
    { unfold accepted; rewrite Ht; apply N.leb_le; lia. }
    pose proof (handleFileSelect_accepts f rest (state c) A) as E.
    unfold step; rewrite E; cbn; auto.
Qed.

Lemma C3_size_ceiling_is_exclusive_witness :
  handleFileSelect [ {| type := lit "text/plain"; size := 10485761 |} ]
    initialState = (setError msgTooLarge initialState, None).
Proof.
  apply (C3_size_ceiling_is_exclusive initialConfig []
           {| type := lit "text/plain"; size := 10485761 |} []).
  - reflexivity.
  - reflexivity.
Defined.

(** A plain-text document of exactly 10 MiB is not refused: no size message,
    and [extractText] is called on it. *)
Lemma C3_exactly_ten_MiB_is_accepted :
  (10 * 1024 * 1024 <= size tenMiBTextFile)%N /\
  handleFileSelect [tenMiBTextFile] initialState
    <> (setError msgTooLarge initialState, None) /\
  snd (handleFileSelect [tenMiBTextFile] initialState) = Some tenMiBTextFile /\
  pending (step initialConfig (FileChange [] [tenMiBTextFile]))
    = [AwaitExtract tenMiBTextFile].
Proof.
  split; [vm_compute; discriminate|].
  split; [vm_compute; discriminate|].
  split; reflexivity.
Qed.

(** ** Text extractor *)

Lemma image_type_not_text_or_pdf (t : jsstr) :
  startsWith t (lit "image/") = true ->
  eqb t (lit "text/plain") = false /\ eqb t (lit "application/pdf") = false.
Proof.
  intros H; apply startsWith_prefix in H as [r ->].
  split; reflexivity.
Qed.

(** C10: [image/jpg] is on the allow-list, so such a document within the
    size limit is accepted; and every accepted document whose media type
    starts with [image/] is one of JPEG, PNG or [image/jpg] and is answered
    with the OCR placeholder, whatever its content. *)
Theorem C10_image_jpg_accepted_and_images_get_placeholder
  (f : File) (rest : list File) (s : State) (io : FileIO) :
  accepted f = true ->
  startsWith (type f) (lit "image/") = true ->
  In (lit "image/jpg") validTypes /\
  accepted {| type := lit "image/jpg"; size := size f |} = true /\
  (type f = lit "image/jpeg" \/ type f = lit "image/png" \/
   type f = lit "image/jpg") /\
  snd (handleFileSelect (f :: rest) s) = Some f /\
  extractText f io = Resolved imagePlaceholder.
Proof.
  intros A Hi.
  pose proof A as A'; unfold accepted in A'.
  apply andb_true_iff in A' as [Ht Hs].
  split; [apply includes_In; reflexivity|].
  split; [unfold accepted; cbn [type size]; rewrite Hs; reflexivity|].
  split.
  - apply includes_In in Ht.
    destruct (startsWith_prefix _ _ Hi) as [r Er].
    unfold validTypes in Ht; cbn [In] in Ht.
    destruct Ht as [E|[E|[E|[E|[E|[E|[E|[]]]]]]]]; rewrite <- E in *;
      try discriminate Hi; auto.
  - split; [rewrite handleFileSelect_accepts by exact A; reflexivity|].
    destruct (image_type_not_text_or_pdf _ Hi) as [E1 E2].
    unfold extractText; rewrite E1, E2, Hi; reflexivity.
Qed.

Lemma C10_image_jpg_accepted_and_images_get_placeholder_witness :
  extractText {| type := lit "image/jpg"; size := 1 |}
    {| readAsText := None; getDocument := OpenThrows [] |}
  = Resolved imagePlaceholder.
Proof.
  apply (C10_image_jpg_accepted_and_images_get_placeholder
           {| type := lit "image/jpg"; size := 1 |} [] initialState
           {| readAsText := None; getDocument := OpenThrows [] |});
    reflexivity.
Defined.

Lemma walkPages_all_read (pages : list (list jsstr)) (acc : jsstr) :
  walkPages (map PageItems pages) acc = Resolved (acc ++ pagesText pages).
Proof.
  revert acc; induction pages as [|p pages IH]; intros acc; simpl.
  - rewrite app_nil_r; reflexivity.
  - rewrite IH, <- !app_assoc; reflexivity.
Qed.

Lemma blank_join (strs : list jsstr) :
  forallb blank strs = true -> blank (join (lit " ") strs) = true.
Proof.
  induction strs as [|x [|y r] IH]; simpl; intros H; auto.
  - rewrite andb_true_r in H; exact H.
  - apply andb_true_iff in H as [Hx H].
    change (blank (x ++ lit " " ++ join (lit " ") (y :: r)) = true).
    rewrite !blank_app, Hx, (IH H); reflexivity.
Qed.

Lemma blank_pagesText (pages : list (list jsstr)) :
  forallb (forallb blank) pages = true -> blank (pagesText pages) = true.
Proof.
  induction pages as [|p pages IH]; simpl; [reflexivity|].
  intros H; apply andb_true_iff in H as [Hp H].
  rewrite !blank_app, (blank_join _ Hp), (IH H); reflexivity.
Qed.

(** C8: a PDF whose pages are all read and whose concatenated text is empty
    or all white space (so that trimming leaves nothing) is rejected with
    the no-text message, not resolved with an empty string; this is the case
    in particular when every fragment of every page is white space only. *)
Theorem C8_blank_pdf_is_rejected
  (f : File) (io : FileIO) (pages : list (list jsstr)) :
  type f = lit "application/pdf" ->
  getDocument io = Opened (map PageItems pages) ->
  trim (pagesText pages) = [] \/ forallb (forallb blank) pages = true ->
  extractText f io = Rejected msgNoText /\
  forall t, extractText f io <> Resolved t.
Proof.
  intros Ht Hd Hb.
  assert (B : blank (pagesText pages) = true).
  { destruct Hb as [Hb|Hb];
      [apply trim_nil_iff, Hb | apply blank_pagesText, Hb]. }
  assert (E : extractText f io = Rejected msgNoText).
  { unfold extractText; rewrite Ht, Hd, walkPages_all_read.
    cbn [app]; rewrite isEmpty_trim, B; reflexivity. }
  split; [exact E | intros t; rewrite E; discriminate].
Qed.

Lemma C8_blank_pdf_is_rejected_witness :
  extractText {| type := lit "application/pdf"; size := 4 |}
    {| readAsText := None;
       getDocument := Opened [PageItems [lit " "; lit "  "]; PageItems []] |}
  = Rejected msgNoText.
Proof.
  apply (C8_blank_pdf_is_rejected
           {| type := lit "application/pdf"; size := 4 |}
           {| readAsText := None;
              getDocument :=
                Opened [PageItems [lit " "; lit "  "]; PageItems []] |}
           [[lit " "; lit "  "]; []]).
  - reflexivity.
  - reflexivity.
  - left; reflexivity.
Defined.

(** A PDF with some text is resolved with the whole page text. *)
Lemma extractText_pdf_with_text
  (f : File) (io : FileIO) (pages : list (list jsstr)) :
  type f = lit "application/pdf" ->
  getDocument io = Opened (map PageItems pages) ->
  blank (pagesText pages) = false ->
  extractText f io = Resolved (pagesText pages).
Proof.
  intros Ht Hd B; unfold extractText.
  rewrite Ht, Hd, walkPages_all_read; cbn [app].
  rewrite isEmpty_trim, B; reflexivity.
Qed.

Example extractText_two_pages :
  extractText {| type := lit "application/pdf"; size := 100 |}
    {| readAsText := None;
       getDocument := Opened [PageItems [lit "Page"; lit "one"];
                              PageItems [lit "Page two"]] |}
  = Resolved (lit "Page one" ++ [LF] ++ lit "Page two" ++ [LF]).
Proof. reflexivity. Qed.

(** ** Summary request *)

Lemma msgSummaryFailed_longer (x : jsstr) : msgSummaryFailed x <> x.
Proof.
  unfold msgSummaryFailed; intros E.
  apply (f_equal (@length N)) in E; rewrite length_app in E.
  simpl in E; lia.
Qed.

(** C5, as the code has it: the summarization request carries the extracted
    text whole, whatever its length; a failing response whose body has a
    non-empty [error] makes [generateSummaries] fail with the message
    "Failed to generate summaries: " followed by that text, which is never
    the bare service text, and an empty or absent [error] gives the same
    prefix followed by "API request failed". *)
Theorem C5_summary_request_and_wrapped_failure
  (c : Config) (i : nat) (f : File) (io : FileIO) (T x : jsstr) :
  nth_error (pending c) i = Some (AwaitExtract f) ->
  extractText f io = Resolved T ->
  x <> [] ->
  sent (step c (Settle i (Extracted io)))
    = sent c ++ [POST_summarize {| text := T |}] /\
  generateSummaries_request T = POST_summarize {| text := T |} /\
  generateSummaries_settled (NotOk (Json {| ErrorData.error := Some x |}))
    = Rejected (lit "Failed to generate summaries: " ++ x) /\
  generateSummaries_settled (NotOk (Json {| ErrorData.error := Some x |}))
    <> Rejected x /\
  generateSummaries_settled (NotOk (Json {| ErrorData.error := Some [] |}))
    = Rejected (lit "Failed to generate summaries: API request failed") /\
  generateSummaries_settled (NotOk (Json {| ErrorData.error := None |}))
    = Rejected (lit "Failed to generate summaries: API request failed").
Proof.
  intros Hp He Hx; split.
  - unfold step; rewrite Hp, He; reflexivity.
  - split; [reflexivity|].
    destruct x as [|x0 x']; [congruence|].
    split; [reflexivity|]. split; [|split; reflexivity].
    intros E; apply (msgSummaryFailed_longer (x0 :: x')).
    change (@Rejected SummaryData.t (msgSummaryFailed (x0 :: x'))
            = Rejected (x0 :: x')) in E.
    congruence.
Qed.

Lemma C5_summary_request_and_wrapped_failure_witness :
  sent (step (step initialConfig (FileChange [] [smallTextFile]))
             (Settle 0 (Extracted (readsAs (lit "some text")))))
  = [POST_summarize {| text := lit "some text" |}].
Proof.
  apply (C5_summary_request_and_wrapped_failure
           (step initialConfig (FileChange [] [smallTextFile])) 0
           smallTextFile (readsAs (lit "some text"))
           (lit "some text") (lit "x")).
  - reflexivity.
  - reflexivity.
  - discriminate.
Defined.

(** A failing response [{error: "x"}] does not fail with message "x". *)
Lemma C5_service_message_is_wrapped :
  generateSummaries_settled
    (NotOk (Json {| ErrorData.error := Some (lit "x") |}))
  = Rejected (lit "Failed to generate summaries: x") /\
  generateSummaries_settled
    (NotOk (Json {| ErrorData.error := Some (lit "x") |}))
  <> Rejected (lit "x").
Proof. split; [reflexivity | discriminate]. Qed.

(** ** Failing ingestion *)

Lemma not_accepted_rejected (f : File) (s : State) :
  accepted f = false ->
  handleFileSelect [f] s = (setError msgInvalidType s, None) \/
  handleFileSelect [f] s = (setError msgTooLarge s, None).
Proof.
  unfold accepted; intros H.
  destruct (includes validTypes (type f)) eqn:Ht.
  - right; apply handleFileSelect_too_large; [exact Ht|].
    cbn [andb] in H; apply N.leb_gt in H; exact H.
  - left; apply handleFileSelect_invalid_type; exact Ht.
Qed.

(** List surgery on the pending promises. *)

Ltac cfg := cbn [render state pending sent fileInputRef option_map optList].

Lemma nth_error_middle {A} (l1 l2 : list A) (x : A) :
  nth_error (l1 ++ x :: l2) (length l1) = Some x.
Proof. rewrite nth_error_app2, Nat.sub_diag by lia; reflexivity. Qed.

Lemma firstn_middle {A} (l1 l2 : list A) :
  firstn (length l1) (l1 ++ l2) = l1.
Proof. rewrite firstn_app, Nat.sub_diag, firstn_all; simpl; apply app_nil_r. Qed.

Lemma skipn_middle {A} (l1 l2 : list A) (x : A) :
  skipn (S (length l1)) (l1 ++ x :: l2) = l2.
Proof.
  rewrite skipn_app, skipn_all2 by lia.
  replace (S (length l1) - length l1) with 1 by lia; reflexivity.
Qed.

Lemma dropAt_middle {A} (l1 l2 : list A) (x : A) :
  dropAt (length l1) (l1 ++ x :: l2) = l1 ++ l2.
Proof. unfold dropAt; rewrite firstn_middle, skipn_middle; reflexivity. Qed.

Lemma nth_error_length {A} (l : list A) : nth_error l (length l) = None.
Proof. apply nth_error_None; lia. Qed.

(** [ingest] is what the mounted component does on the three events of one
    ingestion. *)
Lemma ingest_is_run (c : Config) (v : jsstr) (f : File) (io : FileIO)
  (r : FetchOutcome SummaryData.t) :
  let i := length (pending c) in
  state (run c [FileChange v [f]; Settle i (Extracted io);
                Settle i (Summarized r)])
  = ingest f io r (state c).
Proof.
  cbn zeta; unfold run, ingest; cbn [fold_left].
  destruct (accepted f) eqn:A.
  - rewrite (handleFileSelect_accepts f [] (state c) A).
    unfold step at 3; rewrite (handleFileSelect_accepts f [] (state c) A).
    cfg. unfold step at 2; cfg. rewrite nth_error_middle.
    destruct (extractText f io) as [t|m]; cbn [handleFileSelect_extracted];
      cfg; rewrite firstn_middle, skipn_middle; unfold step; cfg.
    + cbn [app]; rewrite nth_error_middle, dropAt_middle; reflexivity.
    + cbn [app]; rewrite app_nil_r, nth_error_length; reflexivity.
  - destruct (not_accepted_rejected f (state c) A) as [E|E]; rewrite E;
      unfold step at 3; rewrite E; cfg; rewrite app_nil_r;
      unfold step; cfg; rewrite nth_error_length; cfg;
      rewrite nth_error_length; reflexivity.
Qed.

Lemma error_message_nonempty (m : jsstr) :
  lit "Error processing document: " ++ m <> [].
Proof. discriminate. Qed.




(** ** Reset *)

(** C4, as the code has it.  After any sequence of events, a reset leaves no
    document, no extracted text, no summary, an empty conversation, the
    upload view with an empty file input and no error message.  The chat
    input, the expanded-summary choice and the two loading flags keep the
    value they had, and what is in flight stays in flight. *)
Theorem C4_reset_clears_session_not_everything (evs : list Event) :
  let c := run initialConfig evs in
  let c' := step c ClickReset in
  file (state c') = None /\
  extractedText (state c') = [] /\
  summaries (state c') = None /\
  chatMessages (state c') = [] /\
  activeView (state c') = upload /\
  error (state c') = [] /\
  fileInputRef c' = Some [] /\
  session (state c') = session initialState /\
  chatInput (state c') = chatInput (state c) /\
  expandedSummary (state c') = expandedSummary (state c) /\
  loading (state c') = loading (state c) /\
  chatLoading (state c') = chatLoading (state c) /\
  pending c' = pending c /\
  sent c' = sent c /\
  step c' ClickReset = c'.
Proof.
  cbn zeta; generalize (run initialConfig evs); intros c.
  unfold step, resetApp; cfg.
  unfold attachRef; cbn [setError setActiveView activeView].
  destruct (fileInputRef c); cbn; repeat split; reflexivity.
Qed.

(** After that reset the chat input still holds the typed text and the
    detailed summary is still the expanded one: the state is not that of a
    fresh component.  The difference shows once the next document is
    ingested: the chat view opens with the old text in its input, where a
    fresh component shows an empty input. *)
Lemma C4_reset_keeps_typed_input :
  feasible initialConfig typedThenReset = true /\
  chatInput (state (run initialConfig typedThenReset)) = lit "hi" /\
  chatInput initialState = [] /\
  expandedSummary (state (run initialConfig typedThenReset))
    = Some (lit "detailed") /\
  expandedSummary initialState = Some (lit "short") /\
  state (run initialConfig typedThenReset) <> initialState /\
  run initialConfig typedThenReset <> initialConfig /\
  feasible initialConfig (typedThenReset ++ ingestedAgain) = true /\
  feasible initialConfig ingestedAgain = true /\
  chatInput (state (run initialConfig (typedThenReset ++ ingestedAgain)))
    = lit "hi" /\
  chatInput (state (run initialConfig ingestedAgain)) = [].
Proof.
  split; [reflexivity|]. split; [reflexivity|]. split; [reflexivity|].
  split; [reflexivity|]. split; [reflexivity|].
  split; [vm_compute; discriminate|].
  split; [vm_compute; discriminate|].
  repeat split.
Qed.

(** ** Chat *)

Lemma attachRef_idem (s : State) (r : option jsstr) :
  attachRef s (attachRef s r) = attachRef s r.
Proof. unfold attachRef; destruct (activeView s), r; reflexivity. Qed.

Lemma chatsInFlight_app (a b : list Pending) :
  chatsInFlight (a ++ b) = chatsInFlight a + chatsInFlight b.
Proof. unfold chatsInFlight; rewrite filter_app, length_app; reflexivity. Qed.

Lemma Inv_render (s : State) (r : option jsstr) (p : list Pending)
  (out : list Request) :
  chatsInFlight p = (if chatLoading s then 1 else 0) ->
  Inv (render s r p out).
Proof.
  intros H; split; cfg; [symmetry; apply attachRef_idem | exact H].
Qed.

Lemma handleFileSelect_chatLoading (files : list File) (s : State) :
  chatLoading (fst (handleFileSelect files s)) = chatLoading s.
Proof.
  unfold handleFileSelect; destruct (hd_error files) as [f|]; [|reflexivity].
  destruct (negb _); [reflexivity|].
  destruct (_ <? _)%N; reflexivity.
Qed.

Lemma handleFileSelect_call (files : list File) (s : State) :
  chatsInFlight
    (optList (option_map AwaitExtract (snd (handleFileSelect files s)))) = 0.
Proof. destruct (snd (handleFileSelect files s)); reflexivity. Qed.

Lemma Inv_step (c : Config) (e : Event) : Inv c -> Inv (step c e).
Proof.
  intros [Hr Hc]; destruct e; unfold step.
  - destruct (handleFileSelect files (state c)) as [s' call] eqn:E.
    apply Inv_render; rewrite chatsInFlight_app, Hc.
    pose proof (handleFileSelect_chatLoading files (state c)) as L.
    pose proof (handleFileSelect_call files (state c)) as K.
    rewrite E in L, K; cbn [fst snd] in L, K; rewrite L, K.
    apply Nat.add_0_r.
  - unfold resetApp; apply Inv_render; exact Hc.
  - apply Inv_render; exact Hc.
  - apply Inv_render; exact Hc.
  - apply Inv_render; exact Hc.
  - apply Inv_render; exact Hc.
  - unfold handleChat.
    destruct (isEmpty (trim (chatInput (state c))) || chatLoading (state c))
      eqn:G; apply Inv_render; cfg; rewrite chatsInFlight_app, Hc.
    + cbn; apply Nat.add_0_r.
    + apply orb_false_iff in G as [_ ->]; reflexivity.
  - unfold handleChat.
    destruct (isEmpty (trim (chatInput (state c))) || chatLoading (state c))
      eqn:G; apply Inv_render; cfg; rewrite chatsInFlight_app, Hc.
    + cbn; apply Nat.add_0_r.
    + apply orb_false_iff in G as [_ ->]; reflexivity.
  - destruct (nth_error (pending c) i) as [p|] eqn:N; [|split; assumption].
    destruct (nth_error_split _ _ N) as (l1 & l2 & El & <-).
    rewrite El in Hc |- *; rewrite chatsInFlight_app in Hc.
    destruct p, o; try (split; [exact Hr | rewrite El; rewrite chatsInFlight_app; exact Hc]).
    + destruct (extractText f io) as [t|m]; cbn [handleFileSelect_extracted];
        apply Inv_render; rewrite firstn_middle, skipn_middle;
        cfg; rewrite !chatsInFlight_app; cbn in Hc |- *; exact Hc.
    + apply Inv_render; rewrite dropAt_middle, chatsInFlight_app.
      destruct (generateSummaries_settled r); cbn in Hc |- *; exact Hc.
    + apply Inv_render; rewrite dropAt_middle, chatsInFlight_app.
      cbn in Hc |- *; revert Hc; unfold chatsInFlight.
      destruct (chatLoading (state c)); lia.
Qed.

Lemma Inv_initial : Inv initialConfig.
Proof. split; reflexivity. Qed.

Lemma Inv_run (c : Config) (evs : list Event) : Inv c -> Inv (run c evs).
Proof.
  revert c; induction evs as [|e evs IH]; intros c H; [exact H|].
  apply IH, Inv_step, H.
Qed.

Lemma conversationHistory_verbatim (l : list Msg) :
  map (fun msg => {| role := role msg; content := content msg |}) l = l.
Proof.
  induction l as [|[r t] l IH]; simpl; [|rewrite IH]; reflexivity.
Qed.

(** The guard lets a submission through exactly when no call is in flight
    and the input has something other than white space. *)
Lemma handleChat_accepts (s : State) :
  chatLoading s = false ->
  blank (chatInput s) = false ->
  handleChat s =
  (setChatLoading true
     (setChatMessages (chatMessages s ++ [userTurn (trim (chatInput s))])
        (setChatInput [] s)),
   Some (POST_chat
           {| messages :=
                [framing (extractedText s); acknowledgment]
                ++ chatMessages s ++ [userTurn (trim (chatInput s))] |})).
Proof.
  intros L B; unfold handleChat.
  rewrite isEmpty_trim, B, L, conversationHistory_verbatim; reflexivity.
Qed.

Lemma handleChat_rejects (s : State) :
  chatLoading s = true \/ blank (chatInput s) = true ->
  handleChat s = (s, None).
Proof.
  intros H; unfold handleChat; rewrite isEmpty_trim.
  destruct H as [-> | ->]; [rewrite orb_true_r|]; reflexivity.
Qed.

(** C7: after any sequence of events, a submission (Enter key or Send
    button) made while a chat call is in flight, or with an input that is
    empty or all white space, returns at the guard: the state, the pending
    calls and the requests sent are all as before. *)
Theorem C7_guarded_submission_changes_nothing (evs : list Event) :
  let c := run initialConfig evs in
  0 < chatsInFlight (pending c) \/ blank (chatInput (state c)) = true ->
  handleChat (state c) = (state c, None) /\
  step c ChatKeyEnter = c /\
  step c ClickSend = c.
Proof.
  cbn zeta; pose proof (Inv_run initialConfig evs Inv_initial) as [Hr Hc].
  revert Hr Hc; generalize (run initialConfig evs); intros c Hr Hc H.
  assert (G : handleChat (state c) = (state c, None)).
  { apply handleChat_rejects; destruct H as [H|H]; [left | right; exact H].
    destruct (chatLoading (state c)); [reflexivity | lia]. }
  split; [exact G|].
  unfold step; rewrite G; cfg; unfold render; rewrite !app_nil_r, <- Hr.
  destruct c; split; reflexivity.
Qed.

Lemma C7_guarded_submission_changes_nothing_witness :
  0 < chatsInFlight (pending (run initialConfig oneChatInFlight)) /\
  step (run initialConfig oneChatInFlight) ChatKeyEnter
  = run initialConfig oneChatInFlight.
Proof.
  assert (H : 0 < chatsInFlight (pending (run initialConfig oneChatInFlight)))
    by (vm_compute; lia).
  split; [exact H|].
  destruct (C7_guarded_submission_changes_nothing oneChatInFlight
              (or_introl H)) as (_ & E & _).
  exact E.
Defined.

(** C9: an accepted submission appends to the conversation a user turn
    whose content is the trimmed input, and the request it sends ends with
    a user message of that same content.  The trimmed input is the typed
    input without its leading and trailing white space: it is not empty and
    has white space at neither end. *)
Theorem C9_submitted_text_is_trimmed (s : State) :
  chatLoading s = false ->
  blank (chatInput s) = false ->
  exists ms : list Msg,
    snd (handleChat s) = Some (POST_chat {| messages := ms |}) /\
    last ms acknowledgment = userTurn (trim (chatInput s)) /\
    chatMessages (fst (handleChat s))
      = chatMessages s ++ [userTurn (trim (chatInput s))] /\
    trim (chatInput s) <> [] /\
    tight (trim (chatInput s)) /\
    exists p q, chatInput s = p ++ trim (chatInput s) ++ q /\
                blank p = true /\ blank q = true.
Proof.
  intros L B; rewrite (handleChat_accepts s L B); cbn [fst snd].
  eexists; split; [reflexivity|]. split.
  - rewrite app_assoc; apply last_last.
  - split; [reflexivity|]. split.
    + intros E; apply trim_nil_iff in E; congruence.
    + destruct (trim_split (chatInput s)) as (p & q & E & Bp & Bq & Tg).
      split; [exact Tg|]. exists p, q; auto.
Qed.

Lemma C9_submitted_text_is_trimmed_witness :
  exists ms : list Msg,
    snd (handleChat (setChatInput (lit "  what is this?  ") initialState))
      = Some (POST_chat {| messages := ms |}) /\
    last ms acknowledgment = userTurn (lit "what is this?").
Proof.
  destruct (C9_submitted_text_is_trimmed
              (setChatInput (lit "  what is this?  ") initialState)
              eq_refl eq_refl) as (ms & E & El & _).
  exists ms; split; [exact E | exact El].
Defined.

(** C6: whatever the conversation holds, an accepted submission over an
    extracted text of more than 20,000 code units sends as first message
    the framing instruction followed by exactly the first 20,000 code units
    of the text; the rest of the text, which is not empty, is left out. *)
Theorem C6_framing_holds_first_20000 (s : State) :
  (20000 < len (extractedText s))%N ->
  chatLoading s = false ->
  blank (chatInput s) = false ->
  exists (rest : list Msg) (tail : jsstr),
    snd (handleChat s)
      = Some (POST_chat
                {| messages :=
                     {| role := user;
                        content :=
                          framingText
                          ++ firstn (N.to_nat 20000) (extractedText s) |}
                     :: rest |}) /\
    len (firstn (N.to_nat 20000) (extractedText s)) = 20000%N /\
    extractedText s = firstn (N.to_nat 20000) (extractedText s) ++ tail /\
    tail <> [].
Proof.
  intros Hl L B; rewrite (handleChat_accepts s L B); cbn [snd].
  destruct (substring_0_long (extractedText s) 20000 Hl)
    as (Hn & tail & Ht & Es).
  rewrite substring_0 in Hn, Es.
  eexists; exists tail; split.
  - unfold framing; rewrite substring_0; reflexivity.
  - auto.
Qed.

Lemma C6_framing_holds_first_20000_witness :
  exists (rest : list Msg) (tail : jsstr),
    snd (handleChat longTextState)
      = Some (POST_chat
                {| messages :=
                     {| role := user;
                        content :=
                          framingText
                          ++ firstn (N.to_nat 20000)
                               (extractedText longTextState) |}
                     :: rest |}) /\
    len (firstn (N.to_nat 20000) (extractedText longTextState)) = 20000%N /\
    extractedText longTextState
      = firstn (N.to_nat 20000) (extractedText longTextState) ++ tail /\
    tail <> [].
Proof.
  apply (C6_framing_holds_first_20000 longTextState).
  - vm_compute; reflexivity.
  - reflexivity.
  - reflexivity.
Defined.

(** ** Conversation ordering *)

Lemma run_app (c : Config) (a b : list Event) :
  run c (a ++ b) = run (run c a) b.
Proof. apply fold_left_app. Qed.

Lemma feasible_app (c : Config) (a b : list Event) :
  feasible c (a ++ b) = feasible c a && feasible (run c a) b.
Proof.
  revert c; induction a as [|e a IH]; intros c; simpl; [reflexivity|].
  rewrite IH, andb_assoc; reflexivity.
Qed.

Lemma ingestion_ready (v : jsstr) (f : File) (io : FileIO) (T : jsstr)
  (d : SummaryData.t) :
  accepted f = true ->
  extractText f io = Resolved T ->
  readyChat T [greeting] (run initialConfig (ingestion v f io d)) /\
  feasible initialConfig (ingestion v f io d) = true.
Proof.
  intros A E; unfold ingestion, run, feasible, readyChat.
  cbn [fold_left].
  assert (S1 : step initialConfig (FileChange v [f])
               = render (setActiveView summary
                           (setError []
                              (setLoading true
                                 (setFile (Some f) initialState))))
                        (Some v) [AwaitExtract f] []).
  { unfold step; cbn [state initialConfig render].
    rewrite (handleFileSelect_accepts f [] initialState A); reflexivity. }
  rewrite S1.
  assert (S2 : step (render (setActiveView summary
                               (setError []
                                  (setLoading true
                                     (setFile (Some f) initialState))))
                            (Some v) [AwaitExtract f] [])
                    (Settle 0 (Extracted io))
               = render (setExtractedText T
                           (setActiveView summary
                              (setError []
                                 (setLoading true
                                    (setFile (Some f) initialState)))))
                        None [AwaitSummary]
                        [generateSummaries_request T]).
  { unfold step; cfg; cbn [nth_error]; rewrite E; reflexivity. }
  rewrite S2.
  repeat split.
Qed.

Lemma turn_ready (T : jsstr) (h : list Msg) (c : Config)
  (qa : jsstr * jsstr) :
  readyChat T h c ->
  blank (fst qa) = false ->
  readyChat T (h ++ exchange qa) (run c (turn qa)) /\
  feasible c (turn qa) = true /\
  sent (run c (turn qa))
    = sent c ++ [POST_chat
                   {| messages :=
                        [framing T; acknowledgment]
                        ++ h ++ [userTurn (trim (fst qa))] |}].
Proof.
  destruct c as [s r p out]; unfold readyChat; cfg.
  intros (ET & EH & EL & EV & EP) B; subst p.
  unfold turn, run, feasible; cbn [fold_left].
  assert (S1 : step {| state := s; fileInputRef := r; pending := [];
                       sent := out |} (ChatInputChange (fst qa))
               = render (setChatInput (fst qa) s) r [] out)
    by reflexivity.
  rewrite S1.
  assert (S2 : step (render (setChatInput (fst qa) s) r [] out) ChatKeyEnter
               = render
                   (setChatLoading true
                      (setChatMessages (h ++ [userTurn (trim (fst qa))])
                         (setChatInput [] (setChatInput (fst qa) s))))
                   (attachRef (setChatInput (fst qa) s) r) [AwaitChat]
                   (out ++ [POST_chat
                              {| messages :=
                                   [framing T; acknowledgment]
                                   ++ h ++ [userTurn (trim (fst qa))] |}])).
  { unfold step; cfg.
    rewrite (handleChat_accepts (setChatInput (fst qa) s) EL B).
    cbn [setChatInput chatMessages extractedText chatInput].
    rewrite ET, EH; reflexivity. }
  rewrite S2.
  unfold enabled; cfg.
  cbn [setChatInput activeView chatLoading]; rewrite EV, EL.
  unfold step; cfg; cbn [nth_error handleChat_settled].
  cbn; rewrite ET, EV, <- app_assoc; repeat split.
Qed.

Lemma turns_ready (T : jsstr) (turns : list (jsstr * jsstr)) :
  forall (h : list Msg) (c : Config),
    readyChat T h c ->
    forallb (fun qa => negb (blank (fst qa))) turns = true ->
    readyChat T (h ++ flat_map exchange turns) (run c (flat_map turn turns)) /\
    feasible c (flat_map turn turns) = true.
Proof.
  induction turns as [|qa turns IH]; intros h c R F.
  - cbn [flat_map]; rewrite app_nil_r; split; [exact R | reflexivity].
  - cbn [forallb] in F; apply andb_true_iff in F as [B F].
    apply negb_true_iff in B.
    destruct (turn_ready T h c qa R B) as (R1 & F1 & _).
    destruct (IH _ _ R1 F) as (R2 & F2).
    change (flat_map turn (qa :: turns)) with (turn qa ++ flat_map turn turns).
    change (flat_map exchange (qa :: turns))
      with (exchange qa ++ flat_map exchange turns).
    rewrite run_app, feasible_app, F1, F2, app_assoc.
    split; [exact R2 | reflexivity].
Qed.

Lemma length_exchanges (turns : list (jsstr * jsstr)) :
  length (flat_map exchange turns) = 2 * length turns.
Proof.
  induction turns as [|qa turns IH]; [reflexivity|].
  cbn [flat_map exchange app length]; rewrite IH; lia.
Qed.

Lemma submit_ready (T : jsstr) (h : list Msg) (c : Config) (q : jsstr) :
  readyChat T h c ->
  blank q = false ->
  feasible c [ChatInputChange q; ChatKeyEnter] = true /\
  sent (run c [ChatInputChange q; ChatKeyEnter])
    = sent c ++ [POST_chat
                   {| messages :=
                        [framing T; acknowledgment]
                        ++ h ++ [userTurn (trim q)] |}].
Proof.
  destruct c as [s r p out]; unfold readyChat; cfg.
  intros (ET & EH & EL & EV & EP) B; subst p.
  unfold run, feasible; cbn [fold_left].
  assert (S1 : step {| state := s; fileInputRef := r; pending := [];
                       sent := out |} (ChatInputChange q)
               = render (setChatInput q s) r [] out)
    by reflexivity.
  rewrite S1; unfold enabled; cfg.
  cbn [setChatInput activeView chatLoading]; rewrite EV, EL.
  split; [reflexivity|].
  unfold step; cfg.
  rewrite (handleChat_accepts (setChatInput q s) EL B); cfg.
  cbn [setChatInput chatMessages extractedText chatInput].
  rewrite ET, EH; reflexivity.
Qed.

Lemma lastSent_snoc (c : Config) (out : list Request) (r : Request) :
  sent c = out ++ [r] -> lastSent c = Some r.
Proof.
  intros E; unfold lastSent; rewrite E, map_app; apply last_last.
Qed.

Example request_after_one_turn :
  lastSent
    (run initialConfig
       ((ingestion (lit "a.txt") smallTextFile (readsAs (lit "x"))
           sampleSummary ++ flat_map turn oneTurn)
        ++ [ChatInputChange (lit "And then?"); ChatKeyEnter]))
  = Some (POST_chat
            {| messages :=
                 [ framing (lit "x");
                   acknowledgment;
                   greeting;
                   userTurn (lit "What is it about?");
                   assistantTurn (lit "It is about x.");
                   userTurn (lit "And then?") ] |}).
Proof. reflexivity. Qed.

(** * Further properties *)

(** ** Selection of a file *)

(** X1: when [handleFileSelect] returns before calling [extractText],
    nothing is left pending and nothing is sent.  With no file selected the
    state is untouched; with a file, only the error message changes: it is
    the format message when the media type is not on the list, whatever the
    size, and the size message otherwise. *)
Theorem X1_refused_selection_only_sets_error
  (c : Config) (v : jsstr) (files : list File) :
  snd (handleFileSelect files (state c)) = None ->
  pending (step c (FileChange v files)) = pending c /\
  sent (step c (FileChange v files)) = sent c /\
  match files with
  | [] => state (step c (FileChange v files)) = state c
  | f :: _ =>
      state (step c (FileChange v files))
      = setError (if includes validTypes (type f) then msgTooLarge
                  else msgInvalidType) (state c) /\
      (includes validTypes (type f) = true ->
       (10 * 1024 * 1024 < size f)%N)
  end.
Proof.
  unfold step; destruct files as [|f rest].
  - intros _; cbn; rewrite app_nil_r; auto.
  - destruct (includes validTypes (type f)) eqn:Ht.
    + destruct (N.ltb_spec (10 * 1024 * 1024) (size f)) as [Hs|Hs].
      * rewrite (handleFileSelect_too_large f rest (state c) Ht Hs).
        intros _; cfg; rewrite app_nil_r; auto.
      * rewrite (handleFileSelect_accepts f rest (state c)); [discriminate|].
        unfold accepted; rewrite Ht; apply N.leb_le; exact Hs.
    + rewrite (handleFileSelect_invalid_type f rest (state c) Ht).
      intros _; cfg; rewrite app_nil_r.
      repeat split; discriminate.
Qed.

Lemma X1_refused_selection_only_sets_error_witness :
  state (step initialConfig
           (FileChange (lit "a.exe")
              [ {| type := lit "application/x-msdownload";
                   size := 99999999 |} ]))
  = setError msgInvalidType initialState.
Proof.
  apply (X1_refused_selection_only_sets_error initialConfig (lit "a.exe")
           [ {| type := lit "application/x-msdownload";
                size := 99999999 |} ] eq_refl).
Defined.

(** ** Ingestion *)



(** X3: over the three events of one ingestion, exactly one summarization
    request is sent when the document is accepted and its text extracted,
    and it carries that text; when the selection is refused or the
    extraction fails, no request is sent at all.  Either way no promise of
    the ingestion is left pending. *)
Theorem X3_one_summarize_call_per_extracted_document
  (c : Config) (v : jsstr) (f : File) (io : FileIO)
  (r : FetchOutcome SummaryData.t) :
  sent (run c (ingestEvents (length (pending c)) v f io r))
  = sent c
    ++ (if accepted f then
          match extractText f io with
          | Resolved T => [POST_summarize {| text := T |}]
          | Rejected _ => []
          end
        else []) /\
  pending (run c (ingestEvents (length (pending c)) v f io r)) = pending c.
Proof.
  unfold ingestEvents, run; cbn [fold_left].
  destruct (accepted f) eqn:A.
  - unfold step at 3 6; rewrite (handleFileSelect_accepts f [] (state c) A).
    cfg. unfold step at 2 4; cfg. rewrite nth_error_middle.
    destruct (extractText f io) as [t|m]; cbn [handleFileSelect_extracted];
      cfg; rewrite firstn_middle, skipn_middle; unfold step; cfg.
    + cbn [app]; rewrite nth_error_middle, dropAt_middle, app_nil_r.
      cfg; split; reflexivity.
    + cbn [app]; rewrite !app_nil_r, nth_error_length; cfg.
      split; reflexivity.
  - destruct (not_accepted_rejected f (state c) A) as [E|E];
      unfold step at 3 6; rewrite E; cfg; rewrite !app_nil_r;
      unfold step; cfg; rewrite nth_error_length; cfg;
      rewrite nth_error_length; split; reflexivity.
Qed.



(** ** Extraction *)

Lemma join_single (sep t : jsstr) : join sep [t] = t.
Proof. reflexivity. Qed.

Lemma pagesText_single_fragments (texts : list jsstr) :
  pagesText (map (fun t => [t]) texts) = flat_map (fun t => t ++ [LF]) texts.
Proof.
  induction texts as [|t texts IH]; [reflexivity|].
  cbn [map]; unfold pagesText in *; cbn [flat_map].
  rewrite IH; reflexivity.
Qed.

(** X5: the text extracted from a PDF whose pages are all read, and which
    is not blank, is the concatenation over the pages, in page order, of the
    page's fragments separated by single spaces and followed by one newline;
    with one fragment per page it is each fragment followed by a newline. *)
Theorem X5_pdf_text_is_pages_in_order
  (f : File) (io : FileIO) (pages : list (list jsstr)) :
  type f = lit "application/pdf" ->
  getDocument io = Opened (map PageItems pages) ->
  blank (pagesText pages) = false ->
  extractText f io
  = Resolved (concat (map (fun strs => join (lit " ") strs ++ [LF]) pages)) /\
  (forall texts, pages = map (fun t => [t]) texts ->
     extractText f io = Resolved (flat_map (fun t => t ++ [LF]) texts)).
Proof.
  intros Ht Hd B.
  pose proof (extractText_pdf_with_text f io pages Ht Hd B) as E.
  split.
  - rewrite E; unfold pagesText; rewrite flat_map_concat_map; reflexivity.
  - intros texts ->; rewrite E, pagesText_single_fragments; reflexivity.
Qed.

Lemma X5_pdf_text_is_pages_in_order_witness :
  extractText {| type := lit "application/pdf"; size := 9 |}
    {| readAsText := None;
       getDocument := Opened [PageItems [lit "a"; lit "b"];
                              PageItems []; PageItems [lit "c"]] |}
  = Resolved (lit "a b" ++ [LF] ++ [LF] ++ lit "c" ++ [LF]).
Proof.
  exact (proj1 (X5_pdf_text_is_pages_in_order
                  {| type := lit "application/pdf"; size := 9 |}
                  {| readAsText := None;
                     getDocument := Opened [PageItems [lit "a"; lit "b"];
                                            PageItems [];
                                            PageItems [lit "c"]] |}
                  [[lit "a"; lit "b"]; []; [lit "c"]]
                  eq_refl eq_refl eq_refl)).
Defined.

Lemma walkPages_first_failure (good : list (list jsstr)) (m : jsstr)
  (rest : list PageOutcome) (acc : jsstr) :
  walkPages (map PageItems good ++ PageThrows m :: rest) acc = Rejected m.
Proof.
  revert acc; induction good as [|p good IH]; intros acc; [reflexivity|].
  cbn [map app walkPages]; apply IH.
Qed.

(** X6: when the PDF cannot be opened, or some page cannot be read,
    extraction is rejected with "Failed to extract text from PDF: " followed
    by the message of the failure, of the first failing page when there are
    several; the text of the pages read before it is discarded and the pages
    after it are not looked at. *)
Theorem X6_pdf_failure_is_wrapped
  (f : File) (io : FileIO) (m : jsstr) :
  type f = lit "application/pdf" ->
  getDocument io = OpenThrows m \/
  (exists good rest,
      getDocument io = Opened (map PageItems good ++ PageThrows m :: rest)) ->
  extractText f io = Rejected (lit "Failed to extract text from PDF: " ++ m).
Proof.
  intros Ht [Hd | (good & rest & Hd)]; unfold extractText;
    rewrite Ht, Hd; cbn [eqb lit]; [reflexivity|].
  change (eqb (lit "application/pdf") (lit "text/plain")) with false.
  rewrite eqb_refl, walkPages_first_failure; reflexivity.
Qed.

Lemma X6_pdf_failure_is_wrapped_witness :
  extractText {| type := lit "application/pdf"; size := 9 |}
    {| readAsText := None;
       getDocument := Opened [PageItems [lit "page one"];
                              PageThrows (lit "bad xref");
                              PageThrows (lit "later")] |}
  = Rejected (lit "Failed to extract text from PDF: bad xref").
Proof.
  apply (X6_pdf_failure_is_wrapped
           {| type := lit "application/pdf"; size := 9 |}
           {| readAsText := None;
              getDocument := Opened [PageItems [lit "page one"];
                                     PageThrows (lit "bad xref");
                                     PageThrows (lit "later")] |}
           (lit "bad xref") eq_refl).
  right; exists [[lit "page one"]], [PageThrows (lit "later")]; reflexivity.
Defined.

(** X7: for every document that is not plain text, a successful extraction
    never yields an empty or blank text: a PDF is resolved only with text
    that has a character other than white space, and the two placeholders
    are not blank. *)
Theorem X7_extracted_text_not_blank_unless_plain_text
  (f : File) (io : FileIO) (t : jsstr) :
  eqb (type f) (lit "text/plain") = false ->
  extractText f io = Resolved t ->
  blank t = false /\ trim t <> [].
Proof.
  intros Hn E.
  assert (B : blank t = false).
  { unfold extractText in E; rewrite Hn in E.
    destruct (eqb (type f) (lit "application/pdf")).
    - destruct (match getDocument io with
                | OpenThrows m => Rejected m
                | Opened pages => walkPages pages []
                end) as [fullText|m]; [|discriminate].
      rewrite isEmpty_trim in E.
      destruct (blank fullText) eqn:B; [discriminate|].
      injection E as <-; exact B.
    - destruct (startsWith (type f) (lit "image/"));
        injection E as <-; reflexivity. }
  split; [exact B|].
  intros E0; apply trim_nil_iff in E0; congruence.
Qed.

Lemma X7_extracted_text_not_blank_unless_plain_text_witness :
  blank imagePlaceholder = false /\ trim imagePlaceholder <> [].
Proof.
  apply (X7_extracted_text_not_blank_unless_plain_text
           {| type := lit "image/png"; size := 5 |}
           {| readAsText := None; getDocument := OpenThrows [] |}
           imagePlaceholder eq_refl eq_refl).
Defined.

(** X8: among accepted documents, the last branch of [extractText] is taken
    exactly by the two Word media types, and it resolves with the DOC/DOCX
    placeholder whatever the content. *)
Theorem X8_word_documents_get_placeholder
  (f : File) (io : FileIO) :
  accepted f = true ->
  eqb (type f) (lit "text/plain") = false ->
  eqb (type f) (lit "application/pdf") = false ->
  startsWith (type f) (lit "image/") = false ->
  (type f = lit "application/msword" \/
   type f = lit "application/vnd.openxmlformats-officedocument.wordprocessingml.document") /\
  extractText f io = Resolved docPlaceholder.
Proof.
  intros A H1 H2 H3; split.
  - unfold accepted in A; apply andb_true_iff in A as [Ht _].
    apply includes_In in Ht; unfold validTypes in Ht; cbn [In] in Ht.
    destruct Ht as [E|[E|[E|[E|[E|[E|[E|[]]]]]]]]; rewrite <- E in *;
      try discriminate; auto.
  - unfold extractText; rewrite H1, H2, H3; reflexivity.
Qed.

Lemma X8_word_documents_get_placeholder_witness :
  extractText {| type := lit "application/msword"; size := 5 |}
    {| readAsText := Some (lit "ignored"); getDocument := OpenThrows [] |}
  = Resolved docPlaceholder.
Proof.
  apply (X8_word_documents_get_placeholder
           {| type := lit "application/msword"; size := 5 |}
           {| readAsText := Some (lit "ignored");
              getDocument := OpenThrows [] |}
           eq_refl eq_refl eq_refl eq_refl).
Defined.

(** ** Summarization *)

(** X9: [generateSummaries] resolves only on a successful response whose
    body parses, and then with that body unchanged; every other outcome
    (network failure, failing status, unreadable body of either kind) is
    rejected with a message that starts with
    "Failed to generate summaries: ". *)
Theorem X9_generateSummaries_outcomes (r : FetchOutcome SummaryData.t) :
  match generateSummaries_settled r with
  | Resolved d => r = Ok (Json d)
  | Rejected m =>
      startsWith m (lit "Failed to generate summaries: ") = true /\
      match r with Ok (Json _) => False | _ => True end
  end.
Proof.
  destruct r as [m|[m|e]|[m|d]]; cbn [generateSummaries_settled];
    try reflexivity;
    (split; [unfold msgSummaryFailed; apply startsWith_app | exact I]).
Qed.

(** ** Chat *)

Lemma handleChat_settled_reply (r : FetchOutcome ChatData.t) (s : State) :
  handleChat_settled r s
  = setChatLoading false
      (setChatMessages (chatMessages s ++ [assistantTurn (chatReply r)]) s).
Proof. destruct r as [m|[m|e]|[m|d]]; reflexivity. Qed.

(** X10: when the chat call settles, exactly one assistant turn is appended
    and the chat flag is cleared; nothing else changes, the error message
    in particular.  On any failure (network, failing status with or without
    an [error] text, unreadable body) the appended turn is the fixed
    apology: the text reported by the service is not shown. *)
Theorem X10_chat_failure_becomes_apology
  (r : FetchOutcome ChatData.t) (s : State) :
  handleChat_settled r s
  = {| file := file s; extractedText := extractedText s;
       summaries := summaries s; loading := loading s;
       chatMessages :=
         chatMessages s
         ++ [{| role := assistant;
                content := match r with
                           | Ok (Json data) => ChatData.content data
                           | _ => fallback
                           end |}];
       chatInput := chatInput s; chatLoading := false;
       activeView := activeView s; expandedSummary := expandedSummary s;
       error := error s |}.
Proof. destruct r as [m|[m|e]|[m|d]]; reflexivity. Qed.

Lemma framing_content (T : jsstr) :
  content (framing T) = framingText ++ firstn (N.to_nat 20000) T.
Proof. unfold framing; cbn [content]; rewrite substring_0; reflexivity. Qed.

(** X11: the framing message of a chat request is the instruction followed
    by the whole extracted text when that text has at most 20,000 code
    units, and in every case by a prefix of it; the message is never longer
    than the instruction plus 20,000 code units. *)
Theorem X11_framing_is_bounded_and_whole_when_short (T : jsstr) :
  ((len T <= 20000)%N -> content (framing T) = framingText ++ T) /\
  (exists rest, T = firstn (N.to_nat 20000) T ++ rest /\
                content (framing T)
                = framingText ++ firstn (N.to_nat 20000) T) /\
  len (content (framing T)) = (len framingText + N.min 20000 (len T))%N /\
  (len (content (framing T)) <= len framingText + 20000)%N.
Proof.
  rewrite framing_content.
  assert (L : len (framingText ++ firstn (N.to_nat 20000) T)
              = (len framingText + N.min 20000 (len T))%N).
  { rewrite len_app; unfold len at 2 3.
    rewrite length_firstn, Nat2N.inj_min, N2Nat.id; reflexivity. }
  split; [|split; [|split]].
  - unfold len; intros H; rewrite firstn_all2 by lia; reflexivity.
  - exists (skipn (N.to_nat 20000) T); split;
      [symmetry; apply firstn_skipn | reflexivity].
  - exact L.
  - rewrite L; lia.
Qed.

Lemma X11_framing_is_bounded_and_whole_when_short_witness :
  content (framing (lit "short document"))
  = framingText ++ lit "short document".
Proof.
  apply (X11_framing_is_bounded_and_whole_when_short (lit "short document")).
  vm_compute; discriminate.
Defined.

(** X12: when the Send button is enabled, clicking it sends one chat request
    made of the framing message, the acknowledgment, the conversation as it
    stands and the trimmed input, that is three messages more than the
    conversation holds; the input is emptied, the chat flag raised and one
    chat call left pending. *)
Theorem X12_enabled_send_sends_one_request (c : Config) :
  enabled c ClickSend = true ->
  sent (step c ClickSend)
  = sent c
    ++ [POST_chat
          {| messages :=
               [framing (extractedText (state c)); acknowledgment]
               ++ chatMessages (state c)
               ++ [userTurn (trim (chatInput (state c)))] |}] /\
  length ([framing (extractedText (state c)); acknowledgment]
          ++ chatMessages (state c)
          ++ [userTurn (trim (chatInput (state c)))])
  = length (chatMessages (state c)) + 3 /\
  chatInput (state (step c ClickSend)) = [] /\
  chatLoading (state (step c ClickSend)) = true /\
  pending (step c ClickSend) = pending c ++ [AwaitChat].
Proof.
  unfold enabled; intros H.
  destruct (activeView (state c)); try discriminate.
  apply negb_true_iff, orb_false_iff in H as [L B].
  rewrite isEmpty_trim in B.
  unfold step; rewrite (handleChat_accepts (state c) L B); cfg.
  split; [reflexivity|]. split; [|repeat split].
  cbn [app length]; rewrite length_app; cbn [length]; lia.
Qed.

Lemma X12_enabled_send_sends_one_request_witness :
  pending
    (step (run initialConfig
             [ FileChange (lit "a.txt") [smallTextFile];
               ClickChatTab; ChatInputChange (lit "q") ]) ClickSend)
  = [AwaitExtract smallTextFile; AwaitChat].
Proof.
  apply (X12_enabled_send_sends_one_request
           (run initialConfig
              [ FileChange (lit "a.txt") [smallTextFile];
                ClickChatTab; ChatInputChange (lit "q") ])).
  reflexivity.
Defined.

(** ** What holds after any sequence of events *)

Lemma handleFileSelect_cases (files : list File) (s : State) :
  handleFileSelect files s = (s, None) \/
  (exists m, handleFileSelect files s = (setError m s, None)) \/
  (exists f,
      handleFileSelect files s
      = (setActiveView summary
           (setError [] (setLoading true (setFile (Some f) s))), Some f)).
Proof.
  unfold handleFileSelect; destruct (hd_error files) as [f|]; [|auto].
  destruct (negb _); [right; left; eexists; reflexivity|].
  destruct (_ <? _)%N; right; [left | right]; eexists; reflexivity.
Qed.

Lemma handleChat_cases (s : State) :
  handleChat s = (s, None) \/
  (exists b,
      handleChat s
      = (setChatLoading true
           (setChatMessages (chatMessages s ++ [userTurn (trim (chatInput s))])
              (setChatInput [] s)), Some (POST_chat b))).
Proof.
  unfold handleChat.
  destruct (isEmpty (trim (chatInput s)) || chatLoading s); [auto|].
  right; eexists; reflexivity.
Qed.

Lemma ingestionsInFlight_app (a b : list Pending) :
  ingestionsInFlight (a ++ b) = ingestionsInFlight a + ingestionsInFlight b.
Proof.
  unfold ingestionsInFlight; rewrite filter_app, length_app; reflexivity.
Qed.

Lemma InvIngest_step (c : Config) (e : Event) :
  InvIngest c -> InvIngest (step c e).
Proof.
  intros [Hu Hl]; destruct e; unfold step.
  - destruct (handleFileSelect_cases files (state c))
      as [E|[(m & E)|(f & E)]]; rewrite E; cfg.
    + split; cfg; rewrite ?app_nil_r; assumption.
    + split; cfg; rewrite ?app_nil_r; assumption.
    + split; cfg; [discriminate|].
      intros _; rewrite ingestionsInFlight_app; cbn; lia.
  - unfold resetApp; split; cfg; [reflexivity | exact Hl].
  - split; cfg; [discriminate | exact Hl].
  - split; cfg; [discriminate | exact Hl].
  - split; cfg; assumption.
  - split; cfg; assumption.
  - destruct (handleChat_cases (state c)) as [E|(b & E)]; rewrite E;
      split; cfg; rewrite ?app_nil_r; try assumption.
    intros L; rewrite ingestionsInFlight_app; specialize (Hl L); lia.
  - destruct (handleChat_cases (state c)) as [E|(b & E)]; rewrite E;
      split; cfg; rewrite ?app_nil_r; try assumption.
    intros L; rewrite ingestionsInFlight_app; specialize (Hl L); lia.
  - destruct (nth_error (pending c) i) as [p|] eqn:N; [|split; assumption].
    destruct (nth_error_split _ _ N) as (l1 & l2 & El & <-).
    destruct p, o; try (split; assumption).
    + destruct (extractText f io) as [t|m]; cbn [handleFileSelect_extracted];
        split; cfg; try assumption; try reflexivity; try discriminate.
      rewrite El, firstn_middle, skipn_middle.
      rewrite El in Hl; intros L; specialize (Hl L).
      rewrite !ingestionsInFlight_app in *; cbn in Hl |- *; exact Hl.
    + destruct (generateSummaries_settled r) as [d|m];
        split; cfg; try assumption; try reflexivity; discriminate.
    + split; cfg; rewrite handleChat_settled_reply; [exact Hu|].
      rewrite El, dropAt_middle.
      rewrite El in Hl; intros L; specialize (Hl L).
      rewrite !ingestionsInFlight_app in *; cbn in Hl |- *; exact Hl.
Qed.

Lemma InvIngest_run (c : Config) (evs : list Event) :
  InvIngest c -> InvIngest (run c evs).
Proof.
  revert c; induction evs as [|e evs IH]; intros c H; [exact H|].
  apply IH, InvIngest_step, H.
Qed.

Lemma InvIngest_initial : InvIngest initialConfig.
Proof. split; [reflexivity | discriminate]. Qed.

(** X13: after any sequence of events, the loading flag is on only while a
    [handleFileSelect] is in progress, the chat flag is on exactly while a
    chat call is in flight, and there is never more than one chat call in
    flight. *)
Theorem X13_flags_track_work_in_flight (evs : list Event) :
  (loading (state (run initialConfig evs)) = true ->
   0 < ingestionsInFlight (pending (run initialConfig evs))) /\
  (chatLoading (state (run initialConfig evs)) = true <->
   chatsInFlight (pending (run initialConfig evs)) = 1) /\
  chatsInFlight (pending (run initialConfig evs)) <= 1.
Proof.
  pose proof (InvIngest_run initialConfig evs InvIngest_initial) as [_ Hl].
  pose proof (Inv_run initialConfig evs Inv_initial) as [_ Hc].
  split; [exact Hl|]. rewrite Hc.
  destruct (chatLoading (state (run initialConfig evs)));
    split; try split; try lia; try reflexivity; discriminate.
Qed.

Lemma X13_flags_track_work_in_flight_witness :
  0 < ingestionsInFlight
        (pending (run initialConfig
                    [FileChange (lit "a.txt") [smallTextFile]])).
Proof.
  apply (X13_flags_track_work_in_flight
           [FileChange (lit "a.txt") [smallTextFile]]).
  reflexivity.
Defined.

(** X14: after any sequence of events, the upload view is shown only with no
    current document.  So the Reset button and the file input are never on
    the page together, and whenever Reset can be clicked the file input is
    not mounted: the last line of [resetApp] finds no input to clear. *)
Theorem X14_reset_never_meets_the_file_input
  (evs : list Event) (v : jsstr) (files : list File) :
  (activeView (state (run initialConfig evs)) = upload ->
   file (state (run initialConfig evs)) = None) /\
  enabled (run initialConfig evs) ClickReset
  && enabled (run initialConfig evs) (FileChange v files) = false /\
  (enabled (run initialConfig evs) ClickReset = true ->
   fileInputRef (run initialConfig evs) = None /\
   snd (resetApp (state (run initialConfig evs))
          (fileInputRef (run initialConfig evs))) = None).
Proof.
  pose proof (InvIngest_run initialConfig evs InvIngest_initial) as [Hu _].
  pose proof (Inv_run initialConfig evs Inv_initial) as [Hr _].
  revert Hu Hr; generalize (run initialConfig evs); intros c Hu Hr.
  split; [exact Hu|]. unfold enabled, attachRef in *.
  destruct (activeView (state c)) eqn:V.
  - rewrite (Hu eq_refl); split; [reflexivity | discriminate].
  - rewrite andb_false_r; split; [reflexivity|].
    intros _; rewrite Hr; split; reflexivity.
  - rewrite andb_false_r; split; [reflexivity|].
    intros _; rewrite Hr; split; reflexivity.
Qed.

Lemma X14_reset_never_meets_the_file_input_witness :
  fileInputRef (run initialConfig [FileChange (lit "a.txt") [smallTextFile]])
  = None.
Proof.
  apply (X14_reset_never_meets_the_file_input
           [FileChange (lit "a.txt") [smallTextFile]] [] []).
  reflexivity.
Defined.

(** ** One event at a time *)

Lemma handleFileSelect_chatMessages (files : list File) (s : State) :
  chatMessages (fst (handleFileSelect files s)) = chatMessages s.
Proof.
  destruct (handleFileSelect_cases files s) as [E|[(m & E)|(f & E)]];
    rewrite E; reflexivity.
Qed.

(** X15: an event changes the conversation in one of three ways only.  A
    reset empties it; the end of a summarization leaves it alone or replaces
    it by the single greeting; any other event keeps every turn already
    there, in place, and appends at most one. *)
Theorem X15_conversation_only_grows_between_resets
  (c : Config) (e : Event) :
  match e with
  | ClickReset => chatMessages (state (step c e)) = []
  | Settle _ (Summarized _) =>
      chatMessages (state (step c e)) = chatMessages (state c) \/
      chatMessages (state (step c e)) = [greeting]
  | _ =>
      exists extra,
        chatMessages (state (step c e)) = chatMessages (state c) ++ extra /\
        length extra <= 1
  end.
Proof.
  assert (same : forall l : list Msg,
             exists extra, l = l ++ extra /\ length extra <= 1).
  { intros l; exists []; rewrite app_nil_r; split; [reflexivity | cbn; lia]. }
  destruct e; unfold step; cfg; try apply same; try reflexivity.
  - pose proof (handleFileSelect_chatMessages files (state c)) as E.
    destruct (handleFileSelect files (state c)) as [s' call]; cfg.
    cbn [fst] in E; rewrite E; apply same.
  - destruct (handleChat_cases (state c)) as [E|(b & E)]; rewrite E; cfg;
      [apply same|].
    eexists; split; [reflexivity | cbn; lia].
  - destruct (handleChat_cases (state c)) as [E|(b & E)]; rewrite E; cfg;
      [apply same|].
    eexists; split; [reflexivity | cbn; lia].
  - destruct o as [io|r|r]; destruct (nth_error (pending c) i) as [[f| |]|];
      try apply same; try (left; reflexivity).
    + destruct (extractText f io) as [t|m]; cbn [handleFileSelect_extracted];
        cfg; apply same.
    + destruct (generateSummaries_settled r) as [d|m]; cfg;
        [right | left]; reflexivity.
    + cfg; rewrite handleChat_settled_reply.
      eexists; split; [reflexivity | cbn; lia].
Qed.

(** X16: requests already sent stay in the log, and an event sends at most
    one more.  Only a chat submission sends a chat request and only the end
    of an extraction sends a summarization request; selecting a file,
    resetting, switching view, typing, and the end of a summarization or of
    a chat call send nothing. *)
Theorem X16_requests_come_from_two_places (c : Config) (e : Event) :
  exists out,
    sent (step c e) = sent c ++ out /\
    length out <= 1 /\
    match e with
    | ChatKeyEnter | ClickSend =>
        forall r, In r out -> exists b, r = POST_chat b
    | Settle _ (Extracted _) =>
        forall r, In r out -> exists b, r = POST_summarize b
    | _ => out = []
    end.
Proof.
  assert (none : forall l : list Request,
             exists out, l = l ++ out /\ length out <= 1 /\ out = []).
  { intros l; exists []; rewrite app_nil_r; repeat split; cbn; lia. }
  assert (none' : forall (l : list Request) (P : Request -> Prop),
             exists out, l = l ++ out /\ length out <= 1 /\
                         forall r, In r out -> P r).
  { intros l P; exists []; rewrite app_nil_r; repeat split; cbn; [lia|].
    intros r []. }
  destruct e; unfold step; cfg; try apply none.
  - destruct (handleFileSelect files (state c)) as [s' call]; cfg.
    apply none.
  - destruct (handleChat_cases (state c)) as [E|(b & E)]; rewrite E; cfg;
      [rewrite app_nil_r; apply none'|].
    eexists; split; [reflexivity|]. split; [cbn; lia|].
    intros r [<-|[]]; eexists; reflexivity.
  - destruct (handleChat_cases (state c)) as [E|(b & E)]; rewrite E; cfg;
      [rewrite app_nil_r; apply none'|].
    eexists; split; [reflexivity|]. split; [cbn; lia|].
    intros r [<-|[]]; eexists; reflexivity.
  - destruct o as [io|r|r]; destruct (nth_error (pending c) i) as [[f| |]|];
      cfg; try apply none; try apply none'.
    destruct (extractText f io) as [t|m]; cbn [handleFileSelect_extracted];
      cfg; [|rewrite app_nil_r; apply none'].
    eexists; split; [reflexivity|]. split; [cbn; lia|].
    intros r [<-|[]]; eexists; reflexivity.
Qed.

(** X17: a reset cancels nothing that is in flight.  What was pending stays
    pending, and when it settles after the reset its continuation runs on
    the emptied state: a summarization that succeeds stores its summary and
    the greeting although there is no document and the upload view is
    shown; a chat call appends its reply to the emptied conversation; an
    extraction that succeeds stores its text and sends the summarization
    request. *)
Theorem X17_reset_cancels_nothing_in_flight
  (c : Config) (i : nat) (p : Pending) :
  nth_error (pending c) i = Some p ->
  pending (step c ClickReset) = pending c /\
  match p with
  | AwaitSummary =>
      forall d,
        summaries
          (state (step (step c ClickReset)
                       (Settle i (Summarized (Ok (Json d)))))) = Some d /\
        chatMessages
          (state (step (step c ClickReset)
                       (Settle i (Summarized (Ok (Json d)))))) = [greeting] /\
        file
          (state (step (step c ClickReset)
                       (Settle i (Summarized (Ok (Json d)))))) = None /\
        activeView
          (state (step (step c ClickReset)
                       (Settle i (Summarized (Ok (Json d)))))) = upload
  | AwaitChat =>
      forall r,
        chatMessages
          (state (step (step c ClickReset) (Settle i (Answered r))))
        = [{| role := assistant;
              content := match r with
                         | Ok (Json data) => ChatData.content data
                         | _ => fallback
                         end |}]
  | AwaitExtract f =>
      forall io T,
        extractText f io = Resolved T ->
        extractedText
          (state (step (step c ClickReset) (Settle i (Extracted io)))) = T /\
        sent (step (step c ClickReset) (Settle i (Extracted io)))
        = sent c ++ [POST_summarize {| text := T |}]
  end.
Proof.
  intros N.
  assert (R : step c ClickReset
              = render (fst (resetApp (state c) (fileInputRef c)))
                       (snd (resetApp (state c) (fileInputRef c)))
                       (pending c) (sent c)) by reflexivity.
  rewrite R; cfg; split; [reflexivity|].
  destruct p.
  - intros io T E; unfold step; cfg; rewrite N, E.
    cbn [handleFileSelect_extracted]; cfg; split; reflexivity.
  - intros d; unfold step; cfg; rewrite N; cfg; repeat split.
  - intros r; unfold step; cfg; rewrite N; cfg.
    rewrite handleChat_settled_reply; destruct r as [m|[m|e]|[m|d]];
      reflexivity.
Qed.

Lemma X17_reset_cancels_nothing_in_flight_witness :
  pending (step (run initialConfig
                   [FileChange (lit "a.txt") [smallTextFile]]) ClickReset)
  = [AwaitExtract smallTextFile].
Proof.
  apply (X17_reset_cancels_nothing_in_flight
           (run initialConfig [FileChange (lit "a.txt") [smallTextFile]])
           0 (AwaitExtract smallTextFile) eq_refl).
Defined.

(** ** Turns that fail *)

Lemma anyTurn_ready (T : jsstr) (h : list Msg) (c : Config)
  (qr : jsstr * FetchOutcome ChatData.t) :
  readyChat T h c ->
  blank (fst qr) = false ->
  readyChat T (h ++ anyExchange qr) (run c (anyTurn qr)) /\
  feasible c (anyTurn qr) = true.
Proof.
  intros R B.
  destruct (submit_ready T h c (fst qr) R B) as (F & S).
  destruct c as [s r p out]; unfold readyChat in *; revert R F S; cfg.
  intros (ET & EH & EL & EV & EP) F S; subst p.
  unfold anyTurn, run, feasible in *; cbn [fold_left] in *.
  apply andb_true_iff in F as [F1 F2]; apply andb_true_iff in F2 as [F2 _].
  rewrite F1, F2; cbn [andb].
  assert (S1 : step {| state := s; fileInputRef := r; pending := [];
                       sent := out |} (ChatInputChange (fst qr))
               = render (setChatInput (fst qr) s) r [] out)
    by reflexivity.
  rewrite S1 in *.
  assert (S2 : step (render (setChatInput (fst qr) s) r [] out) ChatKeyEnter
               = render
                   (setChatLoading true
                      (setChatMessages (h ++ [userTurn (trim (fst qr))])
                         (setChatInput [] (setChatInput (fst qr) s))))
                   (attachRef (setChatInput (fst qr) s) r) [AwaitChat]
                   (out ++ [POST_chat
                              {| messages :=
                                   [framing T; acknowledgment]
                                   ++ h ++ [userTurn (trim (fst qr))] |}])).
  { unfold step; cfg.
    rewrite (handleChat_accepts (setChatInput (fst qr) s) EL B).
    cbn [setChatInput chatMessages extractedText chatInput].
    rewrite ET, EH; reflexivity. }
  rewrite S2; unfold enabled, step; cfg; cbn [nth_error].
  rewrite handleChat_settled_reply; cbn.
  rewrite ET, EV, <- app_assoc; repeat split.
Qed.

Lemma length_anyExchanges (turns : list (jsstr * FetchOutcome ChatData.t)) :
  length (flat_map anyExchange turns) = 2 * length turns.
Proof.
  induction turns as [|qr turns IH]; [reflexivity|].
  cbn [flat_map anyExchange app length]; rewrite IH; lia.
Qed.

(** X18: the component is idle in the chat view ([readyChat]: no chat call
    in flight, no promise pending at all) and chat turns are then run one
    after the other, each question typed, submitted with Enter and settled
    before the next is typed, with no other event in between.  A turn whose
    call fails then completes like one that succeeds: the question and one
    assistant turn (the apology) are appended and the next question is
    accepted.  After any number of such turns, failed or not, the
    conversation has grown by exactly two turns per turn, in order, and the
    next request replays all of them. *)
Theorem X18_failed_turns_keep_the_conversation_going
  (T : jsstr) (turns : list (jsstr * FetchOutcome ChatData.t)) :
  forall (h : list Msg) (c : Config) (q : jsstr),
    readyChat T h c ->
    forallb (fun qr => negb (blank (fst qr))) turns = true ->
    blank q = false ->
    feasible c (flat_map anyTurn turns ++ [ChatInputChange q; ChatKeyEnter])
      = true /\
    chatMessages (state (run c (flat_map anyTurn turns)))
      = h ++ flat_map anyExchange turns /\
    length (chatMessages (state (run c (flat_map anyTurn turns))))
      = length h + 2 * length turns /\
    lastSent (run c (flat_map anyTurn turns
                     ++ [ChatInputChange q; ChatKeyEnter]))
      = Some (POST_chat
                {| messages :=
                     [framing T; acknowledgment]
                     ++ (h ++ flat_map anyExchange turns)
                     ++ [userTurn (trim q)] |}).
Proof.
  assert (G : forall (h : list Msg) (c : Config),
             readyChat T h c ->
             forallb (fun qr => negb (blank (fst qr))) turns = true ->
             readyChat T (h ++ flat_map anyExchange turns)
                       (run c (flat_map anyTurn turns)) /\
             feasible c (flat_map anyTurn turns) = true).
  { induction turns as [|qr turns IH]; intros h c R F.
    - cbn [flat_map]; rewrite app_nil_r; split; [exact R | reflexivity].
    - cbn [forallb] in F; apply andb_true_iff in F as [B F].
      apply negb_true_iff in B.
      destruct (anyTurn_ready T h c qr R B) as (R1 & F1).
      destruct (IH _ _ R1 F) as (R2 & F2).
      change (flat_map anyTurn (qr :: turns))
        with (anyTurn qr ++ flat_map anyTurn turns).
      change (flat_map anyExchange (qr :: turns))
        with (anyExchange qr ++ flat_map anyExchange turns).
      rewrite run_app, feasible_app, F1, F2, app_assoc.
      split; [exact R2 | reflexivity]. }
  intros h c q R F B.
  destruct (G h c R F) as (R1 & F1).
  destruct (submit_ready T _ _ q R1 B) as (F2 & S2).
  split; [rewrite feasible_app, F1, F2; reflexivity|].
  split; [apply R1|].
  split.
  - destruct R1 as (_ & -> & _).
    rewrite length_app, length_anyExchanges; reflexivity.
  - rewrite run_app; apply (lastSent_snoc _ _ _ S2).
Qed.

Lemma X18_failed_turns_keep_the_conversation_going_witness :
  chatMessages
    (state (run (run initialConfig
                   (ingestion (lit "a.txt") smallTextFile
                      (readsAs (lit "x")) sampleSummary))
                (flat_map anyTurn failingTurns)))
  = [ greeting;
      userTurn (lit "one?"); assistantTurn fallback;
      userTurn (lit "two?"); assistantTurn (lit "2") ].
Proof.
  apply (X18_failed_turns_keep_the_conversation_going
           (lit "x") failingTurns [greeting]
           (run initialConfig
              (ingestion (lit "a.txt") smallTextFile
                 (readsAs (lit "x")) sampleSummary))
           (lit "next?")).
  - repeat split.
  - reflexivity.
  - reflexivity.
Defined.

(** ** Text and summary across events *)

Lemma handleFileSelect_keeps_text (files : list File) (s : State) :
  extractedText (fst (handleFileSelect files s)) = extractedText s /\
  summaries (fst (handleFileSelect files s)) = summaries s.
Proof.
  destruct (handleFileSelect_cases files s) as [E|[(m & E)|(f & E)]];
    rewrite E; split; reflexivity.
Qed.

(** X19: the extracted text and the summary change at three moments only.
    A reset clears both; the end of an extraction may store a new text and
    leaves the summary alone; the end of a summarization may store a new
    summary and leaves the text alone.  Selecting a file, switching view,
    typing, submitting a question and receiving its answer change neither,
    so every chat request of a conversation frames the same text. *)
Theorem X19_text_and_summary_change_at_three_moments
  (c : Config) (e : Event) :
  match e with
  | ClickReset =>
      extractedText (state (step c e)) = [] /\
      summaries (state (step c e)) = None
  | Settle _ (Extracted _) =>
      summaries (state (step c e)) = summaries (state c)
  | Settle _ (Summarized _) =>
      extractedText (state (step c e)) = extractedText (state c)
  | _ =>
      extractedText (state (step c e)) = extractedText (state c) /\
      summaries (state (step c e)) = summaries (state c)
  end.
Proof.
  destruct e; unfold step; cfg; try (split; reflexivity).
  - pose proof (handleFileSelect_keeps_text files (state c)) as E.
    destruct (handleFileSelect files (state c)) as [s' call]; exact E.
  - destruct (handleChat_cases (state c)) as [E|(b & E)]; rewrite E;
      split; reflexivity.
  - destruct (handleChat_cases (state c)) as [E|(b & E)]; rewrite E;
      split; reflexivity.
  - destruct o as [io|r|r]; destruct (nth_error (pending c) i) as [[f| |]|];
      try reflexivity; try (split; reflexivity);
      try (destruct (extractText f io); reflexivity);
      try (destruct (generateSummaries_settled r); reflexivity);
      cfg; rewrite handleChat_settled_reply; split; reflexivity.
Qed.

(** ** Reset, then a new document *)



(** ** Several files selected *)

(** X21: of the files of a selection only the first is looked at: the
    others change nothing in what [handleFileSelect] does, and
    [extractText] is called, on that first file, exactly when its media
    type is on the list and its size is at most 10 * 1024 * 1024 bytes. *)
Theorem X21_only_the_first_file_counts
  (f : File) (rest : list File) (s : State) :
  handleFileSelect (f :: rest) s = handleFileSelect [f] s /\
  (snd (handleFileSelect (f :: rest) s) = Some f <->
   includes validTypes (type f) = true /\ (size f <= 10 * 1024 * 1024)%N) /\
  (snd (handleFileSelect (f :: rest) s) = None \/
   snd (handleFileSelect (f :: rest) s) = Some f).
Proof.
  split; [reflexivity|].
  destruct (accepted f) eqn:A.
  - rewrite (handleFileSelect_accepts f rest s A); cbn [snd].
    unfold accepted in A; apply andb_true_iff in A as [Ht Hs].
    apply N.leb_le in Hs; split; [split; auto | right; reflexivity].
  - assert (N : snd (handleFileSelect (f :: rest) s) = None).
    { change (handleFileSelect (f :: rest) s) with (handleFileSelect [f] s).
      destruct (not_accepted_rejected f s A) as [E|E]; rewrite E;
        reflexivity. }
    rewrite N; split; [|left; reflexivity].
    split; [discriminate|]. intros [Ht Hs].
    unfold accepted in A; rewrite Ht in A; cbn [andb] in A.
    apply N.leb_gt in A; lia.
Qed.

(** * Sessions after a successful ingestion *)








Lemma readyChat_seeded (T : jsstr) (c : Config) :
  readyChat T [greeting] c -> seeded T c.
Proof.
  intros (ET & EH & EL & EV & EP); repeat split; try assumption.
  rewrite EV; discriminate.
Qed.

(** The three events of a successful ingestion by a fresh component leave
    it seeded. *)
Lemma seeded_after_ingestion (v : jsstr) (f : File) (io : FileIO)
  (T : jsstr) (d : SummaryData.t) :
  accepted f = true ->
  extractText f io = Resolved T ->
  seeded T (run initialConfig (ingestEvents 0 v f io (Ok (Json d)))) /\
  feasible initialConfig (ingestEvents 0 v f io (Ok (Json d))) = true.
Proof.
  intros A E; unfold ingestEvents, run, feasible, seeded.
  cbn [fold_left].
  assert (S1 : step initialConfig (FileChange v [f])
               = render (setActiveView summary
                           (setError []
                              (setLoading true
                                 (setFile (Some f) initialState))))
                        (Some v) [AwaitExtract f] []).
  { unfold step; cbn [state initialConfig render].
    rewrite (handleFileSelect_accepts f [] initialState A); reflexivity. }
  rewrite S1.
  assert (S2 : step (render (setActiveView summary
                               (setError []
                                  (setLoading true
                                     (setFile (Some f) initialState))))
                            (Some v) [AwaitExtract f] [])
                    (Settle 0 (Extracted io))
               = render (setExtractedText T
                           (setActiveView summary
                              (setError []
                                 (setLoading true
                                    (setFile (Some f) initialState)))))
                        None [AwaitSummary]
                        [generateSummaries_request T]).
  { unfold step; cfg; cbn [nth_error]; rewrite E; reflexivity. }
  rewrite S2.
  repeat split; discriminate.
Qed.


Example request_after_browsing :
  lastSent
    (step (run (run initialConfig
                  (ingestEvents 0 (lit "a.txt") smallTextFile
                     (readsAs (lit "x")) (Ok (Json sampleSummary))))
               browsingSession) ChatKeyEnter)
  = Some (POST_chat
            {| messages :=
                 [ framing (lit "x");
                   acknowledgment;
                   greeting;
                   userTurn (lit "first?");
                   assistantTurn (lit "one");
                   userTurn (lit "second?") ] |}).
Proof. reflexivity. Qed.

